(** * Session-authenticated members/admin application (src/index.js)

    A shallow embedding of the Express application of [src/index.js]: the
    user collection, the session store, the request handlers of every route,
    and the properties of the authentication and authorisation flow.

    Conventions of the embedding.
    - The user collection is the list of its documents in insertion order
      ([findOne] and [updateOne] act on the first match).
    - The session store maps the session id that express-session attaches to
      a request to the value of [req.session.user]; an id without entry is a
      request whose session object has no [user] property (a new client, or
      a client whose session was destroyed).
    - The libraries the handlers call ([bcrypt], the e-mail rule of [Joi])
      are an interface, class [Libs]; the entropy they draw (the salt) and
      the failure of the store on [destroy] are inputs of the handlers.
    - An [async] handler whose awaited promise rejects sends no response:
      its outcome is [Unhandled].
    - A string is the sequence of its characters, one [ascii] each; an
      identifier ([_id]) is a number, the collection gives a new document a
      number no stored document has. The segment [:id] of a route is the
      identifier it casts to, or a segment that casts to none, for which
      the query is rejected. Expiry of sessions (the TTL of the store) is
      not part of the model. *)

From Stdlib Require Import Ascii String.
From stdpp Require Import base gmap strings list.

Local Open Scope string_scope.
Local Open Scope list_scope.
Local Open Scope nat_scope.

(** ** Data model *)

(** A document of the [User] model (lines 27-33). *)
Module User.
Record t := mk {
  _id : nat;
  name : string;
  email : string;
  password : string;
  user_type : string
}.

(** The update document [{ user_type: v }] applied to one document. *)
Definition set_user_type (v : string) (u : t) : t :=
  {| _id := _id u; name := name u; email := email u;
     password := password u; user_type := v |}.
End User.

(** The object stored in [req.session.user]; a property the handler did not
    write is [None] (JavaScript [undefined]). *)
Module SessionUser.
Record t := mk {
  _id : option nat;
  name : string;
  email : option string;
  user_type : option string
}.
End SessionUser.

(** A property of [req.body] as [express.urlencoded({ extended: true })]
    parses it: absent, a string, or a nested value (array or object). *)
Inductive field :=
| Undefined
| Str (s : string)
| Nested.

Module Body.
Record t := mk { name : field; email : field; password : field }.
End Body.

(** JavaScript truthiness of a body property: [!f] is [negb (truthy f)]. *)
Definition truthy (f : field) : bool :=
  match f with
  | Undefined => false
  | Str s => negb (String.eqb s "")
  | Nested => true
  end.

(** The error codes of the Joi rules the schemas use. *)
Inductive joi_code :=
| any_required
| string_base
| string_empty
| string_alphanum
| string_min (limit : nat)
| string_max (limit : nat)
| string_email.

(** The [error] local of a rendered form: a literal of the source, or the
    message of the first Joi error, [error.details[0].message]. *)
Inductive message :=
| Literal (s : string)
| JoiDetail (key : string) (code : joi_code).

Inductive locals :=
| home_locals (user : option SessionUser.t)
| error_locals (error : option message)
| admin_locals (users : list User.t)
| members_locals (name : string) (images : list string)
| no_locals.

Inductive response :=
| render (status : nat) (view : string) (l : locals)
| redirect (location : string)
| send (status : nat) (body : string).

Inductive store_error :=
| DuplicateKey (email : string)
| CastError (value : string).

Inductive outcome :=
| Responded (r : response)
| Unhandled (e : store_error).

(** The state of the server: the user collection, the session store and the
    lines written with [console.error]. *)
Record State := mkState {
  users : list User.t;
  sessions : gmap nat SessionUser.t;
  console : list (string * string)
}.

Definition set_users (us : list User.t) (st : State) : State :=
  {| users := us; sessions := sessions st; console := console st |}.

Definition set_sessions (ss : gmap nat SessionUser.t) (st : State) : State :=
  {| users := users st; sessions := ss; console := console st |}.

Definition console_error (a b : string) (st : State) : State :=
  {| users := users st; sessions := sessions st;
     console := (console st ++ [(a, b)])%list |}.

(** [req.session.user] of a request with session id [sid]. *)
Definition session_user (st : State) (sid : nat) : option SessionUser.t :=
  sessions st !! sid.

(** ** The libraries *)

Class Libs := {
  (** [bcrypt.hash(data, rounds)], with the salt it draws made explicit *)
  bcrypt_hash : string -> nat -> string -> string;
  (** [bcrypt.compare(data, encrypted)] *)
  bcrypt_compare : string -> string -> bool;
  (** the rule [Joi.string().email()] on a non-empty string *)
  joi_email : string -> bool
}.

(** ** Joi schemas *)

Definition is_alphanum (c : ascii) : bool :=
  let n := nat_of_ascii c in
  ((48 <=? n)%nat && (n <=? 57)%nat) || ((65 <=? n)%nat && (n <=? 90)%nat)
  || ((97 <=? n)%nat && (n <=? 122)%nat).

(** [/^[a-zA-Z0-9]+$/] on a non-empty string. *)
Definition alphanum (s : string) : bool :=
  forallb is_alphanum (list_ascii_of_string s).

Definition rule := string -> option joi_code.

Definition rule_alphanum : rule :=
  fun s => if alphanum s then None else Some string_alphanum.

Definition rule_min (limit : nat) : rule :=
  fun s =>
    if (limit <=? String.length s)%nat then None else Some (string_min limit).

Definition rule_max (limit : nat) : rule :=
  fun s =>
    if (String.length s <=? limit)%nat then None else Some (string_max limit).

Fixpoint first_error (rules : list rule) (s : string) : option joi_code :=
  match rules with
  | [] => None
  | r :: rules' =>
      match r s with
      | Some c => Some c
      | None => first_error rules' s
      end
  end.

(** [Joi.string()....required()]: presence, type, emptiness, then the rules
    in the order they were added. *)
Definition joi_string_required (rules : list rule) (f : field)
  : option joi_code :=
  match f with
  | Undefined => Some any_required
  | Nested => Some string_base
  | Str s => if String.eqb s "" then Some string_empty
             else first_error rules s
  end.

(** [Joi.object({...}).validate(v)] with the default [abortEarly]: the first
    failing key, in the order of the schema. *)
Fixpoint joi_object (keys : list (string * list rule * field))
  : option message :=
  match keys with
  | [] => None
  | (key, rules, f) :: keys' =>
      match joi_string_required rules f with
      | Some c => Some (JoiDetail key c)
      | None => joi_object keys'
      end
  end.

(** ** The user collection *)

(** [User.findOne({ email })] *)
Definition findOne (email : string) (us : list User.t) : option User.t :=
  List.find (fun u => bool_decide (User.email u = email)) us.

(** [User.updateOne({ _id: id }, { user_type: v })]: the first document
    with that [_id], none when there is no such document. *)
Fixpoint updateOne (id : nat) (v : string) (us : list User.t)
  : list User.t :=
  match us with
  | [] => []
  | u :: us' =>
      if bool_decide (User._id u = id)
      then User.set_user_type v u :: us'
      else u :: updateOne id v us'
  end.

(** [req.params.id] as the cast of the model to the type of [_id] sees it:
    the identifier the segment denotes, or a segment that denotes none. *)
Inductive route_id :=
| ObjectId (_id : nat)
| Malformed (segment : string).

(** [User.updateOne({ _id: req.params.id }, { user_type: v })]: the query
    is rejected when the segment casts to no identifier. *)
Definition updateOne_param (id : route_id) (v : string) (us : list User.t)
  : store_error + list User.t :=
  match id with
  | Malformed segment => inl (CastError segment)
  | ObjectId _id => inr (updateOne _id v us)
  end.

(** The identifier of a new document: one no stored document has. *)
Definition new_id (us : list User.t) : nat :=
  S (max_list (User._id <$> us)).

(** [new User({ name, email, password })]: [user_type] takes the default of
    the schema. *)
Definition new_User (us : list User.t) (name email password : string)
  : User.t :=
  {| User._id := new_id us; User.name := name; User.email := email;
     User.password := password; User.user_type := "user" |}.

(** [doc.save()] under the unique index on [email]. *)
Definition save (doc : User.t) (us : list User.t)
  : store_error + list User.t :=
  match findOne (User.email doc) us with
  | Some _ => inl (DuplicateKey (User.email doc))
  | None => inr (us ++ [doc])%list
  end.

(** ** Route handlers *)

Section Handlers.
Context `{Libs}.

Definition rule_email : rule :=
  fun s => if joi_email s then None else Some string_email.

(** The schema of POST /signup (lines 72-76). *)
Definition signup_schema (name email password : field) : option message :=
  joi_object
    [("name", [rule_alphanum; rule_min 2; rule_max 30], name);
     ("email", [rule_email], email);
     ("password", [rule_min 5; rule_max 50], password)].

(** The schema of POST /login (lines 106-109). *)
Definition login_schema (email password : field) : option message :=
  joi_object
    [("email", [rule_email], email);
     ("password", [rule_min 5; rule_max 50], password)].

(** GET / (lines 52-55) *)
Definition get_home (st : State) (sid : nat) : outcome * State :=
  (Responded (render 200 "home" (home_locals (session_user st sid))), st).

(** GET /signup (lines 58-60) *)
Definition get_signup (st : State) (sid : nat) : outcome * State :=
  (Responded (render 200 "signup" (error_locals None)), st).

(** POST /signup (lines 63-91) *)
Definition post_signup (st : State) (sid : nat) (body : Body.t)
    (salt : string) : outcome * State :=
  let name := Body.name body in
  let email := Body.email body in
  let password := Body.password body in
  if negb (truthy name) || negb (truthy email) || negb (truthy password)
  then (Responded (render 200 "signup"
          (error_locals (Some (Literal "Please fill in all fields.")))), st)
  else
    match signup_schema name email password with
    | Some error =>
        (Responded (render 200 "signup" (error_locals (Some error))), st)
    | None =>
        match name, email, password with
        | Str name, Str email, Str password =>
            let hashedPassword := bcrypt_hash password 10 salt in
            let newUser := new_User (users st) name email hashedPassword in
            match save newUser (users st) with
            | inl e => (Unhandled e, st)
            | inr us =>
                let st := set_users us st in
                let st :=
                  set_sessions
                    (<[sid := SessionUser.mk None name None None]>
                       (sessions st)) st in
                (Responded (redirect "/members"), st)
            end
        | _, _, _ =>
            (* excluded by the schema: every key is a string *)
            (Responded (render 200 "signup" (error_locals None)), st)
        end
    end.

(** GET /login (lines 94-96) *)
Definition get_login (st : State) (sid : nat) : outcome * State :=
  (Responded (render 200 "login" (error_locals None)), st).

(** POST /login (lines 99-136) *)
Definition post_login (st : State) (sid : nat) (body : Body.t)
  : outcome * State :=
  let email := Body.email body in
  let password := Body.password body in
  if negb (truthy email) || negb (truthy password)
  then (Responded (render 200 "login"
          (error_locals
             (Some (Literal "Please enter both email and password.")))), st)
  else
    match login_schema email password with
    | Some error =>
        (Responded (render 200 "login" (error_locals (Some error))), st)
    | None =>
        match email, password with
        | Str email, Str password =>
            match findOne email (users st) with
            | None =>
                (Responded (render 200 "login"
                   (error_locals
                      (Some (Literal "User and password not found.")))), st)
            | Some user =>
                let validPassword :=
                  bcrypt_compare password (User.password user) in
                if negb validPassword
                then
                  (Responded (render 200 "login"
                     (error_locals
                        (Some (Literal "User and password not found.")))),
                   st)
                else
                  let su :=
                    {| SessionUser._id := Some (User._id user);
                       SessionUser.name := User.name user;
                       SessionUser.email := Some (User.email user);
                       SessionUser.user_type :=
                         Some (User.user_type user) |} in
                  (Responded (redirect "/members"),
                   set_sessions (<[sid := su]> (sessions st)) st)
            end
        | _, _ =>
            (* excluded by the schema: every key is a string *)
            (Responded (render 200 "login" (error_locals None)), st)
        end
    end.

(** [req.session.user.user_type !== 'admin'] on a present session user. *)
Definition not_admin (su : SessionUser.t) : bool :=
  negb (bool_decide (SessionUser.user_type su = Some "admin")).

(** GET /admin (lines 139-153) *)
Definition get_admin (st : State) (sid : nat) : outcome * State :=
  match session_user st sid with
  | None => (Responded (redirect "/login"), st)
  | Some su =>
      if not_admin su
      then (Responded (send 403 "Not authorized"), st)
      else (Responded (render 200 "admin" (admin_locals (users st))), st)
  end.

(** The guard shared by /promote/:id and /demote/:id (lines 157, 167):
    [!req.session.user || req.session.user.user_type !== 'admin']. *)
Definition role_guard_fails (st : State) (sid : nat) : bool :=
  match session_user st sid with
  | None => true
  | Some su => not_admin su
  end.

(** GET /promote/:id (lines 156-163) *)
Definition get_promote (st : State) (sid : nat) (id : route_id)
  : outcome * State :=
  if role_guard_fails st sid
  then (Responded (send 403 "Not authorized"), st)
  else
    match updateOne_param id "admin" (users st) with
    | inl e => (Unhandled e, st)
    | inr us => (Responded (redirect "/admin"), set_users us st)
    end.

(** GET /demote/:id (lines 166-173) *)
Definition get_demote (st : State) (sid : nat) (id : route_id)
  : outcome * State :=
  if role_guard_fails st sid
  then (Responded (send 403 "Not authorized"), st)
  else
    match updateOne_param id "user" (users st) with
    | inl e => (Unhandled e, st)
    | inr us => (Responded (redirect "/admin"), set_users us st)
    end.

(** GET /members (lines 176-186) *)
Definition get_members (st : State) (sid : nat) : outcome * State :=
  match session_user st sid with
  | None => (Responded (redirect "/"), st)
  | Some su =>
      let images := ["Cat1.jpg"; "Cat2.jpg"; "Cat3.jpg"] in
      let name := SessionUser.name su in
      (Responded (render 200 "members" (members_locals name images)), st)
  end.

(** GET /logout (lines 189-196). [err] is the error the store passes to
    the callback of [destroy]: [None] when the record was removed, an
    error when the store failed and left its records as they were. *)
Definition get_logout (st : State) (sid : nat) (err : option string)
  : outcome * State :=
  match err with
  | Some e =>
      (Responded (redirect "/"),
       console_error "Error destroying session:" e st)
  | None =>
      (Responded (redirect "/"),
       set_sessions (delete sid (sessions st)) st)
  end.

(** The final middleware (lines 199-201). *)
Definition not_found (st : State) (sid : nat) : outcome * State :=
  (Responded (render 404 "404" no_locals), st).

(** *** The application *)

Inductive request :=
| GET_home
| GET_signup
| POST_signup (body : Body.t) (salt : string)
| GET_login
| POST_login (body : Body.t)
| GET_admin
| GET_promote (id : route_id)
| GET_demote (id : route_id)
| GET_members
| GET_logout (err : option string)
| Unmatched.

Definition app (st : State) (sid : nat) (rq : request) : outcome * State :=
  match rq with
  | GET_home => get_home st sid
  | GET_signup => get_signup st sid
  | POST_signup body salt => post_signup st sid body salt
  | GET_login => get_login st sid
  | POST_login body => post_login st sid body
  | GET_admin => get_admin st sid
  | GET_promote id => get_promote st sid id
  | GET_demote id => get_demote st sid id
  | GET_members => get_members st sid
  | GET_logout err => get_logout st sid err
  | Unmatched => not_found st sid
  end.

(** The state after a sequence of requests, each with its session id. *)
Fixpoint serve (st : State) (rqs : list (nat * request)) : State :=
  match rqs with
  | [] => st
  | (sid, rq) :: rqs' => serve (snd (app st sid rq)) rqs'
  end.

(** *** The conditions of signup, in the words of the specification *)

(** The conditions of the specification on the three fields of the form.
    A field is missing when the body has no such property or the property
    is the empty string (an input left blank). *)
Definition spec_missing (f : field) : Prop :=
  f = Undefined \/ f = Str "".

Definition spec_name_ok (f : field) : Prop :=
  exists s, f = Str s /\
    (forall c, In c (list_ascii_of_string s) -> is_alphanum c = true) /\
    2 <= String.length s <= 30.

Definition spec_email_ok (f : field) : Prop :=
  exists s, f = Str s /\ joi_email s = true.

Definition spec_password_ok (f : field) : Prop :=
  exists s, f = Str s /\ 5 <= String.length s <= 50.

Definition spec_invalid (body : Body.t) : Prop :=
  spec_missing (Body.name body) \/ spec_missing (Body.email body) \/
  spec_missing (Body.password body) \/
  ~ spec_name_ok (Body.name body) \/
  ~ spec_email_ok (Body.email body) \/
  ~ spec_password_ok (Body.password body).

Definition validation_error (m : message) : response :=
  render 200 "signup" (error_locals (Some m)).

(** The two checks of the handler (lines 67 and 78-80) as one test. *)
Definition signup_checks (body : Body.t) : bool :=
  negb (negb (truthy (Body.name body)) || negb (truthy (Body.email body))
        || negb (truthy (Body.password body)))
  && bool_decide
       (signup_schema (Body.name body) (Body.email body)
          (Body.password body) = None).

End Handlers.

(** Modelled from the spec: the password hasher ([bcrypt], a library that is
    not part of the sources). "Round-trip: hash(password) then
    verify(password, hash) is true for the same password and false for any
    other string." *)
Class HasherLaws `{Libs} : Prop := {
  verify_same : forall password rounds salt,
    bcrypt_compare password (bcrypt_hash password rounds salt) = true;
  verify_other : forall password other rounds salt,
    other <> password ->
    bcrypt_compare other (bcrypt_hash password rounds salt) = false
}.


(** ** A concrete instance of the libraries

    Enough to run the handlers on concrete requests: the hash stores the
    password behind a fixed prefix (the salt and the rounds are ignored),
    and an e-mail address is a string with an [@]. *)
Definition demo_libs : Libs :=
  {| bcrypt_hash := fun data _ _ => "$2b$" +:+ data;
     bcrypt_compare := fun data encrypted =>
       String.eqb encrypted ("$2b$" +:+ data);
     joi_email := fun s =>
       existsb (Ascii.eqb "@"%char) (list_ascii_of_string s) |}.

Definition alice : User.t :=
  User.mk 1 "alice1" "a@x.com" "$2b$secret" "admin".

Definition bob : User.t :=
  User.mk 2 "bob22" "b@x.com" "$2b$hunter2" "user".

(** Two stored users; session 10 is a login of alice (admin), session 20 a
    login of bob (user); session 30 does not exist. *)
Definition demo_state : State :=
  {| users := [alice; bob];
     sessions :=
       <[10 := SessionUser.mk (Some 1) "alice1" (Some "a@x.com")
                 (Some "admin")]>
         (<[20 := SessionUser.mk (Some 2) "bob22" (Some "b@x.com")
                    (Some "user")]> ∅);
     console := [] |}.

(** ** Routes behind the guard *)

Definition admin_only (rq : request) : bool :=
  match rq with
  | GET_admin | GET_promote _ | GET_demote _ => true
  | _ => false
  end.

Definition protected (rq : request) : bool :=
  match rq with
  | GET_members => true
  | _ => admin_only rq
  end.

Definition forbidden : response := send 403 "Not authorized".

(** The failures of the guard: with no session user, what each protected
    route answers; with a session user whose role is not ['admin'], what
    the admin-only routes answer. *)
Inductive guard_failure (st : State) (sid : nat)
  : request -> response -> Prop :=
| absent_members :
    session_user st sid = None ->
    guard_failure st sid GET_members (redirect "/")
| absent_admin :
    session_user st sid = None ->
    guard_failure st sid GET_admin (redirect "/login")
| absent_promote id :
    session_user st sid = None ->
    guard_failure st sid (GET_promote id) forbidden
| absent_demote id :
    session_user st sid = None ->
    guard_failure st sid (GET_demote id) forbidden
| role_not_admin su rq :
    session_user st sid = Some su ->
    SessionUser.user_type su <> Some "admin" ->
    admin_only rq = true ->
    guard_failure st sid rq forbidden.

(** ** Responses and routes the properties name *)

Definition auth_error : response :=
  render 200 "login"
    (error_locals (Some (Literal "User and password not found."))).

(** The session user that POST /login stores for a document. *)
Definition snapshot (u : User.t) : SessionUser.t :=
  {| SessionUser._id := Some (User._id u);
     SessionUser.name := User.name u;
     SessionUser.email := Some (User.email u);
     SessionUser.user_type := Some (User.user_type u) |}.

(** The role a route writes, and the document it addresses. *)
Definition role_route (rq : request) : option (route_id * string) :=
  match rq with
  | GET_promote id => Some (id, "admin")
  | GET_demote id => Some (id, "user")
  | _ => None
  end.

(** The collection after the query of a role route: a rejected query writes
    nothing. *)
Definition role_write (id : route_id) (v : string) (us : list User.t)
  : list User.t :=
  match updateOne_param id v us with
  | inl _ => us
  | inr us' => us'
  end.

(** The routes whose handler writes or destroys [req.session]. *)
Definition writes_session (rq : request) : bool :=
  match rq with
  | POST_signup _ _ | POST_login _ | GET_logout _ => true
  | _ => false
  end.

(** A request that leaves the session [s] alone: it belongs to another
    session, or its route does not write the session. *)
Definition leaves (s : nat) (x : nat * request) : bool :=
  negb (fst x =? s) || negb (writes_session (snd x)).

(** The line GET /logout writes when the store fails. *)
Definition destroy_log (e : string) : string * string :=
  ("Error destroying session:", e).

(** ** Invariants and effects of the requests *)

(** The unique index on [email] (line 29) and the uniqueness of [_id]. *)
Definition unique_emails (st : State) : Prop :=
  NoDup (User.email <$> users st).

Definition unique_ids (st : State) : Prop :=
  NoDup (User._id <$> users st).

(** No stored user and no session user has the role ['admin']. *)
Definition no_admin (st : State) : Prop :=
  Forall (fun u => User.user_type u <> "admin") (users st) /\
  map_Forall (fun _ su => SessionUser.user_type su <> Some "admin")
    (sessions st).

(** The session user [su] was taken from the document [u]: it has its
    name, and its identifier and e-mail when it has these properties. *)
Definition describes (u : User.t) (su : SessionUser.t) : Prop :=
  SessionUser.name su = User.name u /\
  (forall i, SessionUser._id su = Some i -> User._id u = i) /\
  (forall e, SessionUser.email su = Some e -> User.email u = e).

Definition sessions_of_users (st : State) : Prop :=
  map_Forall (fun _ su => exists u, u ∈ users st /\ describes u su)
    (sessions st).

(** The fields of a document that no handler writes. *)
Definition same_identity (u u' : User.t) : Prop :=
  User._id u' = User._id u /\ User.name u' = User.name u /\
  User.email u' = User.email u /\ User.password u' = User.password u.

(** The routes whose handler only reads. *)
Definition read_only (rq : request) : bool :=
  match rq with
  | GET_home | GET_signup | GET_login | GET_admin | GET_members
  | Unmatched => true
  | _ => false
  end.

(** The request whose handler writes to the console. *)
Definition logs (rq : request) : bool :=
  match rq with
  | GET_logout (Some _) => true
  | _ => false
  end.

(** What a request of the session [sid] can do to the state: nothing; a
    role update, for a session user of role ['admin']; a new user with the
    role ['user'] and an unused e-mail, with a session user of that name; a
    session user taken from a stored user whose password verified; the end
    of the session; a line on the console. *)
Inductive effect `{Libs} (st : State) (sid : nat) : State -> Prop :=
| effect_none : effect st sid st
| effect_role su id v :
    session_user st sid = Some su ->
    SessionUser.user_type su = Some "admin" ->
    v = "admin" \/ v = "user" ->
    effect st sid (set_users (updateOne id v (users st)) st)
| effect_signup n e h :
    findOne e (users st) = None ->
    effect st sid
      {| users := users st ++ [new_User (users st) n e h];
         sessions := <[sid := SessionUser.mk None n None None]> (sessions st);
         console := console st |}
| effect_login u p :
    u ∈ users st ->
    bcrypt_compare p (User.password u) = true ->
    effect st sid (set_sessions (<[sid := snapshot u]> (sessions st)) st)
| effect_logout :
    effect st sid (set_sessions (delete sid (sessions st)) st)
| effect_log e :
    effect st sid (console_error "Error destroying session:" e st).

(** A store without administrator: bob and his session. *)
Definition plain_state : State :=
  {| users := [bob];
     sessions :=
       {[20 := SessionUser.mk (Some 2) "bob22" (Some "b@x.com")
                 (Some "user")]};
     console := [] |}.

(** * Properties *)

(** ** Basic facts *)

Lemma not_admin_true su :
  not_admin su = true <-> SessionUser.user_type su <> Some "admin".
Proof.
  unfold not_admin. rewrite negb_true_iff, bool_decide_eq_false. done.
Qed.

Lemma not_admin_false su :
  not_admin su = false <-> SessionUser.user_type su = Some "admin".
Proof.
  unfold not_admin. rewrite negb_false_iff, bool_decide_eq_true. done.
Qed.

Lemma role_guard_absent st sid :
  session_user st sid = None -> role_guard_fails st sid = true.
Proof. unfold role_guard_fails. by intros ->. Qed.

Lemma role_guard_present st sid su :
  session_user st sid = Some su ->
  role_guard_fails st sid = not_admin su.
Proof. unfold role_guard_fails. by intros ->. Qed.

(** ** The guard *)

(** C1, as the specification states it, fails: with no session GET /members
    answers a redirect to [/], not to [/login]; GET /admin answers a
    redirect to [/login], not to [/]; and GET /promote/:id answers 403, no
    redirect. *)
Lemma guard_absent_counterexample :
  session_user demo_state 30 = None /\
  fst (app (H := demo_libs) demo_state 30 GET_members)
    <> Responded (redirect "/login") /\
  fst (app (H := demo_libs) demo_state 30 GET_admin)
    <> Responded (redirect "/") /\
  fst (app (H := demo_libs) demo_state 30 (GET_promote (ObjectId 2)))
    <> Responded (redirect "/").
Proof. by vm_compute. Qed.

(** Every protected route has an answer for a request without session
    user, and every admin-only route has one for a session user whose role
    is not ['admin']. *)
Lemma guard_failure_total (st : State) (sid : nat) (rq : request) :
  protected rq = true ->
  match session_user st sid with
  | None => exists r, guard_failure st sid rq r
  | Some su =>
      admin_only rq = true -> SessionUser.user_type su <> Some "admin" ->
      guard_failure st sid rq forbidden
  end.
Proof.
  intros Hp. destruct (session_user st sid) as [su|] eqn:Hs.
  - intros Hrq Hrole. by apply (role_not_admin st sid su).
  - destruct rq; try discriminate Hp; eexists.
    + by apply absent_admin.
    + by apply absent_promote.
    + by apply absent_demote.
    + by apply absent_members.
Qed.

Lemma guard_failure_app `{Libs} (st : State) (sid : nat) (rq : request)
    (r : response) :
  guard_failure st sid rq r ->
  app st sid rq = (Responded r, st).
Proof.
  intros [Hs|Hs|id Hs|id Hs|su rq' Hs Hrole Hrq]; simpl.
  - unfold get_members. by rewrite Hs.
  - unfold get_admin. by rewrite Hs.
  - unfold get_promote. by rewrite (role_guard_absent _ _ Hs).
  - unfold get_demote. by rewrite (role_guard_absent _ _ Hs).
  - apply not_admin_true in Hrole.
    destruct rq'; try discriminate Hrq; simpl.
    + unfold get_admin. by rewrite Hs, Hrole.
    + unfold get_promote. by rewrite (role_guard_present _ _ _ Hs), Hrole.
    + unfold get_demote. by rewrite (role_guard_present _ _ _ Hs), Hrole.
Qed.

(** C1 (amended): on a protected route the presence of the session user is
    checked first: when it is absent GET /members redirects to [/],
    GET /admin redirects to [/login], and GET /promote/:id and
    GET /demote/:id answer 403; when it is present and its role is not
    ['admin'], the admin-only routes answer 403. The state is unchanged. *)
Theorem guard_checks `{Libs} (st : State) (sid : nat) (rq : request)
    (r : response) :
  guard_failure st sid rq r ->
  app st sid rq = (Responded r, st).
Proof. apply guard_failure_app. Qed.

Lemma guard_checks_witness :
  app (H := demo_libs) demo_state 30 GET_members
    = (Responded (redirect "/"), demo_state) /\
  app (H := demo_libs) demo_state 30 GET_admin
    = (Responded (redirect "/login"), demo_state) /\
  app (H := demo_libs) demo_state 30 (GET_demote (ObjectId 1))
    = (Responded forbidden, demo_state) /\
  app (H := demo_libs) demo_state 20 (GET_promote (ObjectId 2))
    = (Responded forbidden, demo_state).
Proof.
  split; [|split; [|split]].
  - apply (@guard_checks demo_libs demo_state 30 GET_members).
    apply absent_members. reflexivity.
  - apply (@guard_checks demo_libs demo_state 30 GET_admin).
    apply absent_admin. reflexivity.
  - apply (@guard_checks demo_libs demo_state 30 (GET_demote (ObjectId 1))).
    apply absent_demote. reflexivity.
  - apply (@guard_checks demo_libs demo_state 20 (GET_promote (ObjectId 2))).
    apply (role_not_admin demo_state 20
             (SessionUser.mk (Some 2) "bob22" (Some "b@x.com") (Some "user")));
      [reflexivity | discriminate | reflexivity].
Defined.

(** ** Validation *)

Lemma rule_min_None limit s :
  rule_min limit s = None <-> limit <= String.length s.
Proof.
  unfold rule_min. destruct (Nat.leb_spec limit (String.length s)).
  - split; [done | done].
  - split; [done | lia].
Qed.

Lemma rule_max_None limit s :
  rule_max limit s = None <-> String.length s <= limit.
Proof.
  unfold rule_max. destruct (Nat.leb_spec (String.length s) limit).
  - split; [done | done].
  - split; [done | lia].
Qed.

Lemma rule_alphanum_None s : rule_alphanum s = None <-> alphanum s = true.
Proof. unfold rule_alphanum. by destruct (alphanum s). Qed.

Lemma alphanum_chars s :
  alphanum s = true <->
  forall c, In c (list_ascii_of_string s) -> is_alphanum c = true.
Proof. unfold alphanum. apply forallb_forall. Qed.

Lemma truthy_Str f :
  truthy f = true <-> f = Nested \/ exists s, f = Str s /\ s <> "".
Proof.
  destruct f as [|s|]; simpl.
  - split; [done | intros [?|(s & ? & _)]; done].
  - rewrite negb_true_iff. split.
    + intros Hs. right. exists s. split; [done|].
      intros ->. by rewrite String.eqb_refl in Hs.
    + intros [?|(s' & [= <-] & Hne)]; [done|].
      by apply String.eqb_neq.
  - split; [by left | done].
Qed.

Lemma joi_string_required_None rules f :
  joi_string_required rules f = None <->
  exists s, f = Str s /\ s <> "" /\ first_error rules s = None.
Proof.
  destruct f as [|s|]; simpl.
  - split; [done | by intros (s & ? & _)].
  - destruct (String.eqb_spec s "") as [->|Hne].
    + split; [done | by intros (s' & [= <-] & ? & _)].
    + split.
      * intros Hr. by exists s.
      * by intros (s' & [= <-] & _ & Hr).
  - split; [done | by intros (s & ? & _)].
Qed.

Section Schemas.
Context `{Libs}.

Lemma rule_email_None s : rule_email s = None <-> joi_email s = true.
Proof. unfold rule_email. by destruct (joi_email s). Qed.

Lemma name_rules_None s :
  first_error [rule_alphanum; rule_min 2; rule_max 30] s = None <->
  alphanum s = true /\ 2 <= String.length s <= 30.
Proof.
  simpl. rewrite <- rule_alphanum_None, <- rule_min_None, <- rule_max_None.
  destruct (rule_alphanum s), (rule_min 2 s), (rule_max 30 s);
    intuition congruence.
Qed.

Lemma password_rules_None s :
  first_error [rule_min 5; rule_max 50] s = None <->
  5 <= String.length s <= 50.
Proof.
  simpl. rewrite <- rule_min_None, <- rule_max_None.
  destruct (rule_min 5 s), (rule_max 50 s); intuition congruence.
Qed.

Lemma email_rules_None s :
  first_error [rule_email] s = None <-> joi_email s = true.
Proof.
  simpl. rewrite <- rule_email_None. by destruct (rule_email s).
Qed.

(** What a body that passes the schema of POST /login looks like. *)
Lemma login_schema_None email password :
  login_schema email password = None <->
  exists e p, email = Str e /\ password = Str p /\ e <> "" /\ p <> "" /\
    joi_email e = true /\ 5 <= String.length p <= 50.
Proof.
  unfold login_schema. cbn [joi_object].
  destruct (joi_string_required [rule_email] email) eqn:He.
  { split; [done|]. intros (e & p & -> & _ & Hne & _ & Hm & _).
    assert (joi_string_required [rule_email] (Str e) = None) as Hn
      by (apply joi_string_required_None; exists e;
          by rewrite email_rules_None).
    congruence. }
  destruct (joi_string_required [rule_min 5; rule_max 50] password) eqn:Hp.
  { split; [done|]. intros (e & p & _ & -> & _ & Hne & _ & Hl).
    assert (joi_string_required [rule_min 5; rule_max 50] (Str p) = None)
      as Hn by (apply joi_string_required_None; exists p;
                by rewrite password_rules_None).
    congruence. }
  apply joi_string_required_None in He as (e & -> & Hne & He).
  apply joi_string_required_None in Hp as (p & -> & Hnp & Hp).
  apply email_rules_None in He. apply password_rules_None in Hp.
  split; [|done]. intros _. by exists e, p.
Qed.

(** What a body that passes the schema of POST /signup looks like. *)
Lemma signup_schema_None name email password :
  signup_schema name email password = None <->
  (exists n, name = Str n /\ n <> "" /\ alphanum n = true /\
     2 <= String.length n <= 30) /\
  login_schema email password = None.
Proof.
  unfold signup_schema, login_schema. cbn [joi_object].
  destruct (joi_string_required _ name) eqn:Hn.
  { split; [done|]. intros [(n & -> & Hne & Ha & Hl) _].
    assert (joi_string_required [rule_alphanum; rule_min 2; rule_max 30]
              (Str n) = None) as Hn'
      by (apply joi_string_required_None; exists n;
          by rewrite name_rules_None).
    congruence. }
  apply joi_string_required_None in Hn as (n & -> & Hne & Hn).
  apply name_rules_None in Hn as [Ha Hl].
  split; [|by intros [_ ?]].
  intros Hrest. split; [by exists n | done].
Qed.

Lemma schema_truthy_login email password :
  login_schema email password = None ->
  negb (truthy email) || negb (truthy password) = false.
Proof.
  intros (e & p & -> & -> & He & Hp & _)%login_schema_None. simpl.
  apply String.eqb_neq in He, Hp. by rewrite He, Hp.
Qed.

Lemma schema_truthy_signup name email password :
  signup_schema name email password = None ->
  negb (truthy name) || negb (truthy email) || negb (truthy password)
  = false.
Proof.
  intros [(n & -> & Hn & _) Hl]%signup_schema_None.
  apply schema_truthy_login in Hl. simpl.
  apply String.eqb_neq in Hn. rewrite Hn. exact Hl.
Qed.

End Schemas.

(** ** The user collection: lookups and new identifiers *)

Lemma findOne_None email us :
  findOne email us = None <-> forall u, u ∈ us -> User.email u <> email.
Proof.
  unfold findOne. induction us as [|v us IH]; simpl.
  - split; [|done]. intros _ u Hu. by apply elem_of_nil in Hu.
  - case_bool_decide as Hv.
    + split; [done|]. intros Hall. exfalso.
      apply (Hall v); [by left | done].
    + rewrite IH. split.
      * intros Hall u [->|Hu]%elem_of_cons; [done | by apply Hall].
      * intros Hall u Hu. apply Hall. by right.
Qed.

Lemma findOne_Some email us u :
  findOne email us = Some u -> u ∈ us /\ User.email u = email.
Proof.
  unfold findOne. induction us as [|v us IH]; simpl; [done|].
  case_bool_decide as Hv.
  - intros [= <-]. split; [by left | done].
  - intros [Hu He]%IH. split; [by right | done].
Qed.

Lemma findOne_app_new email us u :
  findOne email us = None -> User.email u = email ->
  findOne email (us ++ [u])%list = Some u.
Proof.
  unfold findOne. intros Hnone He.
  induction us as [|v us IH]; simpl in *.
  - by rewrite bool_decide_eq_true_2.
  - case_bool_decide; [done | by apply IH].
Qed.

Lemma new_id_fresh us u : u ∈ us -> User._id u < new_id us.
Proof.
  intros Hu. unfold new_id.
  assert (User._id u ≤ max_list (User._id <$> us)); [|lia].
  apply max_list_elem_of_le, list_elem_of_fmap. by exists u.
Qed.

Lemma save_new doc us :
  findOne (User.email doc) us = None -> save doc us = inr (us ++ [doc])%list.
Proof. unfold save. by intros ->. Qed.

Lemma save_duplicate doc us u :
  findOne (User.email doc) us = Some u ->
  save doc us = inl (DuplicateKey (User.email doc)).
Proof. unfold save. by intros ->. Qed.

(** ** Login *)

(** C2: a login request with a well-formed e-mail and password gets the
    response with the message "User and password not found." both when no
    user has that e-mail (request [body1] on the store of [st1]) and when
    the user exists and the password does not verify (request [body2] on
    the store of [st2]): the two responses are equal, and neither run
    changes the state. *)
Theorem login_failures_indistinguishable `{Libs} (st1 st2 : State)
    (sid1 sid2 : nat) (body1 body2 : Body.t) (e1 p1 e2 p2 : string)
    (u : User.t) :
  Body.email body1 = Str e1 ->
  Body.password body1 = Str p1 ->
  login_schema (Str e1) (Str p1) = None ->
  Body.email body2 = Str e2 ->
  Body.password body2 = Str p2 ->
  login_schema (Str e2) (Str p2) = None ->
  findOne e1 (users st1) = None ->
  findOne e2 (users st2) = Some u ->
  bcrypt_compare p2 (User.password u) = false ->
  post_login st1 sid1 body1 = (Responded auth_error, st1) /\
  post_login st2 sid2 body2 = (Responded auth_error, st2) /\
  fst (post_login st1 sid1 body1) = fst (post_login st2 sid2 body2).
Proof.
  intros He1 Hp1 Hschema1 He2 Hp2 Hschema2 Hnone Hsome Hcmp.
  assert (post_login st1 sid1 body1 = (Responded auth_error, st1)) as H1.
  { unfold post_login. rewrite He1, Hp1, (schema_truthy_login _ _ Hschema1).
    by rewrite Hschema1, Hnone. }
  assert (post_login st2 sid2 body2 = (Responded auth_error, st2)) as H2.
  { unfold post_login. rewrite He2, Hp2, (schema_truthy_login _ _ Hschema2).
    by rewrite Hschema2, Hsome, Hcmp. }
  by rewrite H1, H2.
Qed.

(** On one store: an e-mail nobody has, and the e-mail of bob with a wrong
    password. *)
Lemma login_failures_indistinguishable_witness :
  let body1 := Body.mk Undefined (Str "z@x.com") (Str "hunter2") in
  let body2 := Body.mk Undefined (Str "b@x.com") (Str "wrong") in
  post_login (H := demo_libs) demo_state 30 body1
    = (Responded auth_error, demo_state) /\
  post_login (H := demo_libs) demo_state 30 body2
    = (Responded auth_error, demo_state) /\
  fst (post_login (H := demo_libs) demo_state 30 body1)
    = fst (post_login (H := demo_libs) demo_state 30 body2).
Proof.
  apply (@login_failures_indistinguishable demo_libs demo_state demo_state
           30 30
           (Body.mk Undefined (Str "z@x.com") (Str "hunter2"))
           (Body.mk Undefined (Str "b@x.com") (Str "wrong"))
           "z@x.com" "hunter2" "b@x.com" "wrong" bob);
    reflexivity.
Defined.

(** ** Signup *)

Lemma post_signup_accepted `{Libs} st sid body n e p salt :
  Body.name body = Str n ->
  Body.email body = Str e ->
  Body.password body = Str p ->
  signup_schema (Str n) (Str e) (Str p) = None ->
  findOne e (users st) = None ->
  post_signup st sid body salt =
    (Responded (redirect "/members"),
     {| users :=
          users st
          ++ [User.mk (new_id (users st)) n e (bcrypt_hash p 10 salt) "user"];
        sessions := <[sid := SessionUser.mk None n None None]> (sessions st);
        console := console st |}).
Proof.
  intros Hn He Hp Hschema Hnone. unfold post_signup.
  rewrite Hn, He, Hp, (schema_truthy_signup _ _ _ Hschema), Hschema.
  unfold new_User. by rewrite save_new.
Qed.

(** C3: a signup request that passes validation, with an e-mail no stored
    user has, appends to the collection one user with the submitted name
    and e-mail, the hash of the password, the role ['user'] and an
    identifier no stored user has; it sets the session user to the object
    with the name only and redirects to [/members]. *)
Theorem signup_success `{Libs} (st : State) (sid : nat) (body : Body.t)
    (n e p salt : string) :
  Body.name body = Str n ->
  Body.email body = Str e ->
  Body.password body = Str p ->
  signup_schema (Str n) (Str e) (Str p) = None ->
  findOne e (users st) = None ->
  let newUser :=
    User.mk (new_id (users st)) n e (bcrypt_hash p 10 salt) "user" in
  post_signup st sid body salt =
    (Responded (redirect "/members"),
     {| users := (users st ++ [newUser])%list;
        sessions := <[sid := SessionUser.mk None n None None]> (sessions st);
        console := console st |}) /\
  (forall u, u ∈ users st -> User._id u <> User._id newUser).
Proof.
  intros Hn He Hp Hschema Hnone newUser. split.
  - unfold post_signup.
    rewrite Hn, He, Hp, (schema_truthy_signup _ _ _ Hschema), Hschema.
    unfold new_User. fold newUser. by rewrite save_new.
  - intros u Hu%new_id_fresh. simpl. lia.
Qed.

Lemma signup_success_witness :
  post_signup (H := demo_libs) demo_state 30
    (Body.mk (Str "carol3") (Str "c@x.com") (Str "secret")) "salt" =
    (Responded (redirect "/members"),
     {| users :=
          [alice; bob; User.mk 3 "carol3" "c@x.com" "$2b$secret" "user"];
        sessions :=
          <[30 := SessionUser.mk None "carol3" None None]>
            (sessions demo_state);
        console := [] |}) /\
  (forall u, u ∈ users demo_state -> User._id u <> 3).
Proof.
  apply (@signup_success demo_libs demo_state 30
           (Body.mk (Str "carol3") (Str "c@x.com") (Str "secret"))
           "carol3" "c@x.com" "secret" "salt");
    reflexivity.
Defined.

(** *** Validation errors of signup *)

Section SignupValidation.
Context `{Libs}.

Lemma post_signup_rejects st sid body salt :
  signup_checks body = false ->
  exists m, post_signup st sid body salt
            = (Responded (validation_error m), st).
Proof.
  unfold signup_checks, post_signup. intros Hc.
  destruct (negb (truthy (Body.name body)) || _ || _) eqn:Ht.
  { by eexists. }
  simpl in Hc. apply bool_decide_eq_false in Hc.
  destruct (signup_schema _ _ _) as [m|]; [by exists m | done].
Qed.

Lemma post_signup_accepts st sid body salt :
  signup_checks body = true ->
  forall m, post_signup st sid body salt
            <> (Responded (validation_error m), st).
Proof.
  unfold signup_checks. intros [Ht Hs]%andb_true_iff m.
  apply negb_true_iff in Ht. apply bool_decide_eq_true in Hs.
  unfold post_signup. rewrite Ht, Hs.
  apply signup_schema_None in Hs as [(n & -> & _) Hl].
  apply login_schema_None in Hl as (e & p & -> & -> & _).
  by destruct (save _ _).
Qed.

Lemma signup_checks_spec body :
  signup_checks body = true <->
  ~ spec_missing (Body.name body) /\ ~ spec_missing (Body.email body) /\
  ~ spec_missing (Body.password body) /\
  spec_name_ok (Body.name body) /\ spec_email_ok (Body.email body) /\
  spec_password_ok (Body.password body).
Proof.
  unfold signup_checks. rewrite andb_true_iff, bool_decide_eq_true.
  split.
  - intros [_ [(n & Hn & Hne & Ha & Hl) Hlog]%signup_schema_None].
    apply login_schema_None in Hlog
      as (e & p & He & Hp & Hee & Hpe & Hm & Hpl).
    rewrite Hn, He, Hp. unfold spec_missing.
    repeat split; try (intros [?|?]; congruence).
    + exists n. by rewrite <- alphanum_chars.
    + by exists e.
    + by exists p.
  - intros (Hn & He & Hp & (n & Hn' & Ha & Hl) & (e & He' & Hm)
            & (p & Hp' & Hpl)).
    rewrite Hn', He', Hp' in *.
    assert (n <> "") as Hnn by (intros ->; apply Hn; by right).
    assert (e <> "") as Hen by (intros ->; apply He; by right).
    assert (p <> "") as Hpn by (intros ->; apply Hp; by right).
    assert (signup_schema (Str n) (Str e) (Str p) = None) as Hs.
    { apply signup_schema_None. split.
      - exists n. by rewrite alphanum_chars.
      - apply login_schema_None. by exists e, p. }
    split; [|done].
    by rewrite (schema_truthy_signup _ _ _ Hs).
Qed.

End SignupValidation.

(** C5: POST /signup answers the form with an error message, leaving the
    user collection and the session store as they were, exactly when a
    field is missing, or the name is not alphanumeric of length 2 to 30, or
    the e-mail is not well-formed, or the length of the password is not in
    5 to 50. *)
Theorem signup_validation_error_iff `{Libs} (st : State) (sid : nat)
    (body : Body.t) (salt : string) :
  (exists m, post_signup st sid body salt
             = (Responded (validation_error m), st))
  <-> spec_invalid body.
Proof.
  destruct (signup_checks body) eqn:Hc.
  - split.
    + intros [m Hm]. by apply (post_signup_accepts st sid body salt Hc) in Hm.
    + apply signup_checks_spec in Hc as (Hn & He & Hp & Hno & Heo & Hpo).
      unfold spec_invalid. tauto.
  - split; [intros _ | intros _; by apply post_signup_rejects].
    unfold spec_invalid.
    destruct (Body.name body) as [|n|] eqn:Hn; [left; by left | |].
    2:{ right; right; right; left. by intros (s & ? & _). }
    destruct (Body.email body) as [|e|] eqn:He; [right; left; by left | |].
    2:{ right; right; right; right; left. by intros (s & ? & _). }
    destruct (Body.password body) as [|p|] eqn:Hp;
      [right; right; left; by left | |].
    2:{ right; right; right; right; right. by intros (s & ? & _). }
    destruct (decide (n = "")) as [->|Hnn]; [left; by right|].
    destruct (decide (e = "")) as [->|Hen]; [right; left; by right|].
    destruct (decide (p = "")) as [->|Hpn]; [right; right; left; by right|].
    destruct (alphanum n) eqn:Ha.
    2:{ right; right; right; left. intros (s & [= <-] & Hs & _).
        apply alphanum_chars in Hs. congruence. }
    destruct (decide (2 <= String.length n <= 30)) as [Hl|Hl].
    2:{ right; right; right; left. by intros (s & [= <-] & _ & ?). }
    destruct (joi_email e) eqn:Hm.
    2:{ right; right; right; right; left. intros (s & [= <-] & ?).
        congruence. }
    destruct (decide (5 <= String.length p <= 50)) as [Hpl|Hpl].
    2:{ right; right; right; right; right. by intros (s & [= <-] & ?). }
    exfalso. apply not_true_iff_false in Hc. apply Hc.
    apply signup_checks_spec. rewrite Hn, He, Hp. unfold spec_missing.
    repeat split; try (intros [?|[= ?]]; congruence).
    + exists n. by rewrite <- alphanum_chars.
    + by exists e.
    + by exists p.
Qed.

(** A name of one character is refused, and the form of carol is not. *)
Lemma signup_validation_error_iff_witness :
  (exists m,
     post_signup (H := demo_libs) demo_state 30
       (Body.mk (Str "c") (Str "c@x.com") (Str "secret")) "salt"
     = (Responded (validation_error m), demo_state)) /\
  ~ spec_invalid (H := demo_libs)
      (Body.mk (Str "carol3") (Str "c@x.com") (Str "secret")).
Proof.
  split.
  - apply (proj2 (@signup_validation_error_iff demo_libs demo_state 30
                    (Body.mk (Str "c") (Str "c@x.com") (Str "secret"))
                    "salt")).
    right; right; right; left. intros (s & Hs & _ & Hl).
    injection Hs as <-. simpl in Hl. lia.
  - intros Hbad.
    apply (proj2 (@signup_validation_error_iff demo_libs demo_state 30
                    (Body.mk (Str "carol3") (Str "c@x.com") (Str "secret"))
                    "salt")) in Hbad.
    destruct Hbad as [m Hm]. discriminate Hm.
Defined.

(** ** Round trip of signup and login *)

Lemma demo_libs_laws : @HasherLaws demo_libs.
Proof.
  split; simpl.
  - intros password _ _. apply String.eqb_refl.
  - intros password other _ _ Hne. apply String.eqb_neq.
    intros [= Heq]. by apply Hne.
Qed.

Lemma post_login_success `{Libs} st sid body e p u :
  Body.email body = Str e ->
  Body.password body = Str p ->
  login_schema (Str e) (Str p) = None ->
  findOne e (users st) = Some u ->
  bcrypt_compare p (User.password u) = true ->
  post_login st sid body =
    (Responded (redirect "/members"),
     set_sessions (<[sid := snapshot u]> (sessions st)) st).
Proof.
  intros He Hp Hschema Hsome Hcmp. unfold post_login.
  rewrite He, Hp, (schema_truthy_login _ _ Hschema), Hschema, Hsome, Hcmp.
  done.
Qed.

(** C4: after a valid signup on a store without that e-mail, a login (from
    any session [sid']) with the same e-mail and password redirects to
    [/members] and leaves a session user of role ['user'], and a login with
    the same e-mail and any other well-formed password is refused: the
    hasher verifies the password it hashed and no other string. *)
Theorem signup_login_round_trip `{HasherLaws} (st : State) (sid sid' : nat)
    (body login : Body.t) (n e p salt : string) :
  Body.name body = Str n ->
  Body.email body = Str e ->
  Body.password body = Str p ->
  signup_schema (Str n) (Str e) (Str p) = None ->
  findOne e (users st) = None ->
  Body.email login = Str e ->
  Body.password login = Str p ->
  let st1 := snd (post_signup st sid body salt) in
  (exists st2,
     post_login st1 sid' login = (Responded (redirect "/members"), st2) /\
     SessionUser.user_type <$> session_user st2 sid' = Some (Some "user") /\
     users st2 = users st1) /\
  (forall q f, q <> p -> login_schema (Str e) (Str q) = None ->
     post_login st1 sid' (Body.mk f (Str e) (Str q))
     = (Responded auth_error, st1)) /\
  (forall t, bcrypt_compare t (bcrypt_hash p 10 salt) = true <-> t = p).
Proof.
  intros Hn He Hp Hschema Hnone Hle Hlp st1.
  pose proof (post_signup_accepted st sid body n e p salt Hn He Hp Hschema
                Hnone) as Hrun.
  set (newUser := User.mk (new_id (users st)) n e (bcrypt_hash p 10 salt)
                    "user") in *.
  assert (findOne e (users st1) = Some newUser) as Hfind.
  { unfold st1. rewrite Hrun. simpl. by apply findOne_app_new. }
  assert (login_schema (Str e) (Str p) = None) as Hlogin.
  { by apply signup_schema_None in Hschema as [_ ?]. }
  split; [|split].
  - eexists. split; [|split].
    + apply (post_login_success st1 sid' login e p newUser); try done.
      apply verify_same.
    + unfold session_user. simpl. by rewrite lookup_insert_eq.
    + done.
  - intros q f Hq Hq_ok.
    assert (bcrypt_compare q (User.password newUser) = false) as Hcmp
      by (by apply verify_other).
    unfold post_login. cbn [Body.email Body.password].
    rewrite (schema_truthy_login _ _ Hq_ok), Hq_ok, Hfind, Hcmp. done.
  - intros t. split.
    + intros Ht. destruct (decide (t = p)) as [|Hne]; [done|].
      rewrite (verify_other p t 10 salt Hne) in Ht. done.
    + intros ->. apply verify_same.
Qed.

(** The scenario of the specification on the demo store: carol signs up in
    session 30 and logs in from session 40. *)
Lemma signup_login_round_trip_witness :
  let body := Body.mk (Str "carol3") (Str "c@x.com") (Str "secret") in
  let login := Body.mk Undefined (Str "c@x.com") (Str "secret") in
  let st1 := snd (post_signup (H := demo_libs) demo_state 30 body "salt") in
  (exists st2,
     post_login (H := demo_libs) st1 40 login
       = (Responded (redirect "/members"), st2) /\
     SessionUser.user_type <$> session_user st2 40 = Some (Some "user") /\
     users st2 = users st1) /\
  (forall q f, q <> "secret" ->
     login_schema (H := demo_libs) (Str "c@x.com") (Str q) = None ->
     post_login (H := demo_libs) st1 40 (Body.mk f (Str "c@x.com") (Str q))
     = (Responded auth_error, st1)) /\
  (forall t, bcrypt_compare (Libs := demo_libs) t
               (bcrypt_hash (Libs := demo_libs) "secret" 10 "salt") = true
             <-> t = "secret").
Proof.
  apply (@signup_login_round_trip demo_libs demo_libs_laws demo_state 30 40
           (Body.mk (Str "carol3") (Str "c@x.com") (Str "secret"))
           (Body.mk Undefined (Str "c@x.com") (Str "secret"))
           "carol3" "c@x.com" "secret" "salt");
    reflexivity.
Defined.

(** The wrong password of the scenario is refused with the message of C2. *)
Example login_wrong_password :
  let body := Body.mk (Str "carol3") (Str "c@x.com") (Str "secret") in
  let st1 := snd (post_signup (H := demo_libs) demo_state 30 body "salt") in
  post_login (H := demo_libs) st1 40
    (Body.mk Undefined (Str "c@x.com") (Str "wrong"))
  = (Responded auth_error, st1).
Proof. reflexivity. Qed.

(** ** Role updates *)

Lemma length_updateOne id v us : length (updateOne id v us) = length us.
Proof.
  induction us as [|u us IH]; simpl; [done|].
  case_bool_decide; simpl; by rewrite ?IH.
Qed.

Lemma updateOne_absent id v us :
  (forall u, u ∈ us -> User._id u <> id) -> updateOne id v us = us.
Proof.
  induction us as [|u us IH]; simpl; [done|]. intros Hall.
  rewrite bool_decide_eq_false_2 by (apply Hall; by left).
  f_equal. apply IH. intros w Hw. apply Hall. by right.
Qed.

Lemma updateOne_lookup id v us i u :
  us !! i = Some u ->
  updateOne id v us !! i = Some u \/
  (User._id u = id /\ updateOne id v us !! i = Some (User.set_user_type v u)).
Proof.
  revert i. induction us as [|w us IH]; intros i; simpl; [done|].
  case_bool_decide as Hw.
  - destruct i as [|i]; simpl.
    + intros [= <-]. by right.
    + intros Hu. by left.
  - destruct i as [|i]; simpl.
    + intros [= <-]. by left.
    + apply IH.
Qed.

Lemma updateOne_first id v us i u :
  us !! i = Some u ->
  User._id u = id ->
  (forall j w, j < i -> us !! j = Some w -> User._id w <> id) ->
  updateOne id v us !! i = Some (User.set_user_type v u).
Proof.
  revert i. induction us as [|w us IH]; intros i; simpl; [done|].
  destruct i as [|i]; simpl.
  - intros [= <-] Hid _. by rewrite bool_decide_eq_true_2.
  - intros Hu Hid Hbefore.
    rewrite bool_decide_eq_false_2
      by (apply (Hbefore 0 w); [lia | done]).
    simpl. apply IH; [done | done |].
    intros j x Hj Hx. apply (Hbefore (S j) x); [lia | done].
Qed.

Lemma updateOne_other id v us i u :
  us !! i = Some u -> User._id u <> id -> updateOne id v us !! i = Some u.
Proof.
  intros Hu Hne.
  destruct (updateOne_lookup id v us i u Hu) as [?|[? _]]; done.
Qed.

(** C6, as the specification states it, fails: for a session whose role
    is ['admin'], GET /promote/:id with a segment that casts to no
    identifier is not answered by a redirect to [/admin]: the query is
    rejected and no response is sent. *)
Lemma set_role_malformed_counterexample :
  (SessionUser.user_type <$> session_user demo_state 10
   = Some (Some "admin")) /\
  app (H := demo_libs) demo_state 10 (GET_promote (Malformed "xyz"))
    = (Unhandled (CastError "xyz"), demo_state) /\
  fst (app (H := demo_libs) demo_state 10 (GET_promote (Malformed "xyz")))
    <> Responded (redirect "/admin").
Proof. by vm_compute. Qed.

(** C6 (amended): for a session whose role is ['admin'] and a segment that
    casts to an identifier, GET /promote/:id and GET /demote/:id redirect
    to [/admin] whether or not a document has the identifier; the
    collection keeps its length and the session store and the console are
    untouched; every document keeps its identifier, name, e-mail and
    password, and a document with another identifier is unchanged; with no
    document of that identifier the collection is unchanged; otherwise the
    first document with the identifier has afterwards the role ['admin']
    (promote) or ['user'] (demote). *)
Theorem set_role_frame `{Libs} (st : State) (sid : nat) (su : SessionUser.t)
    (rq : request) (id : nat) (role : string) :
  session_user st sid = Some su ->
  SessionUser.user_type su = Some "admin" ->
  role_route rq = Some (ObjectId id, role) ->
  exists us',
    app st sid rq = (Responded (redirect "/admin"), set_users us' st) /\
    ((exists s, rq = GET_promote s) /\ role = "admin" \/
     (exists s, rq = GET_demote s) /\ role = "user") /\
    length us' = length (users st) /\
    (forall i u, users st !! i = Some u ->
       exists u', us' !! i = Some u' /\
         User._id u' = User._id u /\ User.name u' = User.name u /\
         User.email u' = User.email u /\
         User.password u' = User.password u /\
         (User._id u <> id -> u' = u)) /\
    ((forall u, u ∈ users st -> User._id u <> id) -> us' = users st) /\
    (forall i u, users st !! i = Some u -> User._id u = id ->
       (forall j w, j < i -> users st !! j = Some w -> User._id w <> id) ->
       exists u', us' !! i = Some u' /\ User.user_type u' = role).
Proof.
  intros Hs Hadmin Hrq. apply not_admin_false in Hadmin.
  exists (updateOne id role (users st)).
  split; [|split; [|split; [|split; [|split]]]].
  - destruct rq; try discriminate Hrq; simpl in Hrq;
      injection Hrq as -> <-; simpl.
    + unfold get_promote. by rewrite (role_guard_present _ _ _ Hs), Hadmin.
    + unfold get_demote. by rewrite (role_guard_present _ _ _ Hs), Hadmin.
  - destruct rq; try discriminate Hrq; simpl in Hrq;
      injection Hrq as -> <-; [left | right]; split; eauto.
  - apply length_updateOne.
  - intros i u Hu.
    destruct (updateOne_lookup id role (users st) i u Hu) as [Hi|[Hid Hi]].
    + exists u. by repeat split.
    + exists (User.set_user_type role u). by repeat split.
  - apply updateOne_absent.
  - intros i u Hu Hid Hfirst.
    exists (User.set_user_type role u). split; [|done].
    by apply updateOne_first.
Qed.

Lemma set_role_frame_witness :
  exists us',
    app (H := demo_libs) demo_state 10 (GET_promote (ObjectId 2))
      = (Responded (redirect "/admin"), set_users us' demo_state) /\
    ((exists s, GET_promote (ObjectId 2) = GET_promote s) /\
     "admin" = "admin" \/
     (exists s, GET_promote (ObjectId 2) = GET_demote s) /\
     "admin" = "user") /\
    length us' = 2 /\
    (forall i u, [alice; bob] !! i = Some u ->
       exists u', us' !! i = Some u' /\
         User._id u' = User._id u /\ User.name u' = User.name u /\
         User.email u' = User.email u /\
         User.password u' = User.password u /\
         (User._id u <> 2 -> u' = u)) /\
    ((forall u, u ∈ [alice; bob] -> User._id u <> 2) -> us' = [alice; bob]) /\
    (forall i u, [alice; bob] !! i = Some u -> User._id u = 2 ->
       (forall j w, j < i -> [alice; bob] !! j = Some w -> User._id w <> 2) ->
       exists u', us' !! i = Some u' /\ User.user_type u' = "admin").
Proof.
  apply (@set_role_frame demo_libs demo_state 10
           (SessionUser.mk (Some 1) "alice1" (Some "a@x.com") (Some "admin"))
           (GET_promote (ObjectId 2)) 2 "admin");
    reflexivity.
Defined.

(** The same requests on concrete stores: promoting bob, and promoting an
    identifier no document has. *)
Example promote_bob :
  app (H := demo_libs) demo_state 10 (GET_promote (ObjectId 2))
  = (Responded (redirect "/admin"),
     set_users [alice; User.mk 2 "bob22" "b@x.com" "$2b$hunter2" "admin"]
       demo_state).
Proof. reflexivity. Qed.

Example promote_nobody :
  app (H := demo_libs) demo_state 10 (GET_promote (ObjectId 7))
  = (Responded (redirect "/admin"), demo_state).
Proof. reflexivity. Qed.

(** The guard precedes the query: a session that is not an administrator
    gets 403 for a segment that is no identifier too. *)
Example promote_malformed_forbidden :
  app (H := demo_libs) demo_state 20 (GET_promote (Malformed "xyz"))
  = (Responded forbidden, demo_state).
Proof. reflexivity. Qed.

(** ** Sessions are snapshots *)

Section Frame.
Context `{Libs}.

Lemma post_signup_sessions st sid body salt :
  sessions (snd (post_signup st sid body salt)) = sessions st \/
  exists su,
    sessions (snd (post_signup st sid body salt))
    = <[sid := su]> (sessions st).
Proof.
  unfold post_signup.
  destruct (negb (truthy (Body.name body)) || _ || _); [by left|].
  destruct (signup_schema _ _ _); [by left|].
  destruct (Body.name body), (Body.email body), (Body.password body);
    try (by left).
  destruct (save _ _); [by left|]. right. by eexists.
Qed.

Lemma post_login_sessions st sid body :
  sessions (snd (post_login st sid body)) = sessions st \/
  exists su,
    sessions (snd (post_login st sid body)) = <[sid := su]> (sessions st).
Proof.
  unfold post_login.
  destruct (negb (truthy (Body.email body)) || _); [by left|].
  destruct (login_schema _ _); [by left|].
  destruct (Body.email body), (Body.password body); try (by left).
  destruct (findOne _ _); [|by left].
  destruct (negb _); [by left|]. right. by eexists.
Qed.

(** A handler that does not write the session leaves the whole session
    store as it was. *)
Lemma app_keeps_sessions st sid rq :
  writes_session rq = false -> sessions (snd (app st sid rq)) = sessions st.
Proof.
  destruct rq; try discriminate; intros _; simpl; try done.
  - unfold get_admin. destruct (session_user st sid); [|done].
    by destruct (not_admin _).
  - unfold get_promote. destruct (role_guard_fails st sid); [done|].
    by destruct id.
  - unfold get_demote. destruct (role_guard_fails st sid); [done|].
    by destruct id.
  - unfold get_members. by destruct (session_user st sid).
Qed.

(** A request of one session leaves the records of the others. *)
Lemma app_other_session st sid rq s :
  sid <> s -> session_user (snd (app st sid rq)) s = session_user st s.
Proof.
  intros Hne. unfold session_user.
  destruct (writes_session rq) eqn:Hw;
    [|by rewrite app_keeps_sessions].
  destruct rq; try discriminate Hw; simpl.
  - destruct (post_signup_sessions st sid body salt) as [->|[su ->]];
      [done | by rewrite lookup_insert_ne].
  - destruct (post_login_sessions st sid body) as [->|[su ->]];
      [done | by rewrite lookup_insert_ne].
  - unfold get_logout. destruct err; simpl; [done|].
    by rewrite lookup_delete_ne.
Qed.

Lemma app_leaves st s x :
  leaves s x = true ->
  session_user (snd (app st (fst x) (snd x))) s = session_user st s.
Proof.
  unfold leaves. intros [Hne|Hw]%orb_true_iff.
  - apply app_other_session. apply negb_true_iff in Hne.
    by apply Nat.eqb_neq.
  - apply negb_true_iff in Hw. unfold session_user.
    by rewrite app_keeps_sessions.
Qed.

(** Over any sequence of requests that leave [s] alone, the session user
    of [s] stays what it was. *)
Lemma serve_leaves st s rqs :
  forallb (leaves s) rqs = true ->
  session_user (serve st rqs) s = session_user st s.
Proof.
  revert st. induction rqs as [|[sid rq] rqs IH]; intros st; simpl;
    [done|].
  intros [Hx Hrest]%andb_true_iff.
  rewrite (IH _ Hrest). apply (app_leaves st s (sid, rq) Hx).
Qed.

Lemma set_role_sessions st sid id :
  sessions (snd (get_promote st sid id)) = sessions st /\
  sessions (snd (get_demote st sid id)) = sessions st.
Proof.
  split.
  - apply (app_keeps_sessions st sid (GET_promote id) eq_refl).
  - apply (app_keeps_sessions st sid (GET_demote id) eq_refl).
Qed.

End Frame.

(** C7: GET /promote/:id and GET /demote/:id leave the session store as it
    was; over any sequence of requests in which the session [s] itself does
    not sign up, log in or log out (role changes by administrators
    included), the session user of [s] stays the snapshot [su], and the
    guard decides on that snapshot: a snapshot whose role is not ['admin']
    is refused on the admin-only routes, a snapshot whose role is ['admin']
    still passes the guard of /promote/:id and /demote/:id, whatever the
    stored roles have become. *)
Theorem role_change_keeps_sessions `{Libs} (st : State) (s : nat)
    (su : SessionUser.t) (rqs : list (nat * request)) :
  session_user st s = Some su ->
  forallb (leaves s) rqs = true ->
  let st' := serve st rqs in
  (forall st0 sid id,
     sessions (snd (get_promote st0 sid id)) = sessions st0 /\
     sessions (snd (get_demote st0 sid id)) = sessions st0) /\
  session_user st' s = Some su /\
  role_guard_fails st' s = role_guard_fails st s /\
  (SessionUser.user_type su <> Some "admin" ->
   forall rq, admin_only rq = true ->
     app st' s rq = (Responded forbidden, st')) /\
  (SessionUser.user_type su = Some "admin" ->
   forall id,
     fst (app st' s (GET_promote (ObjectId id)))
     = Responded (redirect "/admin") /\
     fst (app st' s (GET_demote (ObjectId id)))
     = Responded (redirect "/admin")).
Proof.
  intros Hs Hrqs st'.
  assert (session_user st' s = Some su) as Hs'
    by (unfold st'; by rewrite serve_leaves).
  split; [|split; [|split; [|split]]].
  - intros st0 sid id. apply set_role_sessions.
  - done.
  - by rewrite (role_guard_present _ _ _ Hs), (role_guard_present _ _ _ Hs').
  - intros Hrole rq Hrq. apply guard_failure_app.
    by apply (role_not_admin st' s su).
  - intros Hrole%not_admin_false id. simpl.
    unfold get_promote, get_demote.
    by rewrite (role_guard_present _ _ _ Hs'), Hrole.
Qed.

(** The scenario of the specification: alice (session 10, admin) promotes
    bob; the stored role of bob is ['admin'], the session of bob (20) still
    has the role ['user'] and is refused on GET /admin. *)
Lemma role_change_keeps_sessions_witness :
  let st' :=
    serve (H := demo_libs) demo_state [(10, GET_promote (ObjectId 2))] in
  (User.user_type <$> findOne "b@x.com" (users st') = Some "admin") /\
  session_user st' 20 =
    Some (SessionUser.mk (Some 2) "bob22" (Some "b@x.com") (Some "user")) /\
  app (H := demo_libs) st' 20 GET_admin = (Responded forbidden, st').
Proof.
  pose proof (@role_change_keeps_sessions demo_libs demo_state 20
                (SessionUser.mk (Some 2) "bob22" (Some "b@x.com")
                   (Some "user"))
                [(10, GET_promote (ObjectId 2))] eq_refl eq_refl)
    as (_ & Hsnap & _ & Hrefused & _).
  split; [reflexivity|]. split; [exact Hsnap|].
  apply Hrefused; [discriminate | reflexivity].
Defined.

(** C9: the session user that a successful POST /signup stores has the name
    only; over any sequence of requests in which that session does not sign
    up, log in or log out (a promotion of the new user by an administrator
    included), every request of the session to an admin-only route is
    answered 403 and changes nothing. *)
Theorem signup_session_forbidden `{Libs} (st : State) (sid : nat)
    (body : Body.t) (n e p salt : string) (rqs : list (nat * request))
    (rq : request) :
  Body.name body = Str n ->
  Body.email body = Str e ->
  Body.password body = Str p ->
  signup_schema (Str n) (Str e) (Str p) = None ->
  findOne e (users st) = None ->
  forallb (leaves sid) rqs = true ->
  admin_only rq = true ->
  let st1 := snd (post_signup st sid body salt) in
  let st' := serve st1 rqs in
  session_user st1 sid = Some (SessionUser.mk None n None None) /\
  session_user st' sid = Some (SessionUser.mk None n None None) /\
  app st' sid rq = (Responded forbidden, st').
Proof.
  intros Hn He Hp Hschema Hnone Hrqs Hrq st1 st'.
  assert (session_user st1 sid = Some (SessionUser.mk None n None None))
    as Hs1.
  { unfold st1, post_signup.
    rewrite Hn, He, Hp, (schema_truthy_signup _ _ _ Hschema), Hschema.
    rewrite save_new by done. unfold session_user. simpl.
    by rewrite lookup_insert_eq. }
  assert (session_user st' sid = Some (SessionUser.mk None n None None))
    as Hs' by (unfold st'; by rewrite serve_leaves).
  split; [done|]. split; [done|].
  apply guard_failure_app.
  by apply (role_not_admin st' sid (SessionUser.mk None n None None)).
Qed.

(** carol signs up in session 30, alice (session 10) promotes her: the
    stored role of carol is ['admin'] and GET /admin of session 30 is
    answered 403. *)
Lemma signup_session_forbidden_witness :
  let body := Body.mk (Str "carol3") (Str "c@x.com") (Str "secret") in
  let st1 := snd (post_signup (H := demo_libs) demo_state 30 body "salt") in
  let st' := serve (H := demo_libs) st1 [(10, GET_promote (ObjectId 3))] in
  (User.user_type <$> findOne "c@x.com" (users st') = Some "admin") /\
  session_user st1 30 = Some (SessionUser.mk None "carol3" None None) /\
  session_user st' 30 = Some (SessionUser.mk None "carol3" None None) /\
  app (H := demo_libs) st' 30 GET_admin = (Responded forbidden, st').
Proof.
  split; [reflexivity|].
  apply (@signup_session_forbidden demo_libs demo_state 30
           (Body.mk (Str "carol3") (Str "c@x.com") (Str "secret"))
           "carol3" "c@x.com" "secret" "salt" [(10, GET_promote (ObjectId 3))]
           GET_admin);
    reflexivity.
Defined.

(** After the promotion, a new login of carol in the same session takes the
    stored role, and GET /admin lists the users. *)
Example login_again_refreshes :
  let body := Body.mk (Str "carol3") (Str "c@x.com") (Str "secret") in
  let st1 := snd (post_signup (H := demo_libs) demo_state 30 body "salt") in
  let st' :=
    serve (H := demo_libs) st1
      [(10, GET_promote (ObjectId 3)); (30, POST_login body)] in
  app (H := demo_libs) st' 30 GET_admin
  = (Responded (render 200 "admin" (admin_locals (users st'))), st').
Proof. reflexivity. Qed.

(** ** Logout *)

(** C8: GET /logout redirects to [/] whether the store destroys the session
    or fails; when it succeeds the session has no user any more and the
    next GET /members of the same session redirects to [/]; when it fails
    the error is written to the console. The user collection is untouched
    in both cases. *)
Theorem logout_destroys_session (st : State) (sid : nat) (e : string) :
  let done := get_logout st sid None in
  let failed := get_logout st sid (Some e) in
  fst done = Responded (redirect "/") /\
  session_user (snd done) sid = None /\
  get_members (snd done) sid = (Responded (redirect "/"), snd done) /\
  users (snd done) = users st /\
  fst failed = Responded (redirect "/") /\
  console (snd failed) = console st ++ [destroy_log e] /\
  users (snd failed) = users st.
Proof.
  simpl.
  assert (session_user (set_sessions (delete sid (sessions st)) st) sid
          = None) as Hgone
    by (unfold session_user; simpl; apply lookup_delete_eq).
  repeat split; try done.
  unfold get_members. by rewrite Hgone.
Qed.

Example logout_alice :
  let st' := snd (app (H := demo_libs) demo_state 10 (GET_logout None)) in
  session_user demo_state 10 <> None /\
  session_user st' 10 = None /\
  app (H := demo_libs) st' 10 GET_members = (Responded (redirect "/"), st').
Proof. by vm_compute. Qed.

(** C10: GET /logout answers a redirect to [/] in every state of the
    session and for every outcome of the store, never an error; when the
    session has no user, the user collection and the session store are
    left as they were. *)
Theorem logout_without_session `{Libs} (st : State) (sid : nat)
    (err : option string) :
  exists st',
    app st sid (GET_logout err) = (Responded (redirect "/"), st') /\
    users st' = users st /\
    (session_user st sid = None -> sessions st' = sessions st).
Proof.
  simpl. unfold get_logout. destruct err as [e|].
  - eexists. by repeat split.
  - eexists. split; [done|]. split; [done|].
    intros Hs. simpl. by apply delete_id.
Qed.

Lemma logout_without_session_witness :
  exists st',
    app (H := demo_libs) demo_state 30 (GET_logout None)
      = (Responded (redirect "/"), st') /\
    users st' = users demo_state /\
    sessions st' = sessions demo_state.
Proof.
  destruct (@logout_without_session demo_libs demo_state 30 None)
    as (st' & Hrun & Hus & Hss).
  exists st'. split; [exact Hrun|]. split; [exact Hus|].
  apply Hss. reflexivity.
Defined.

(** * Further properties of the handlers *)

(** ** The outcomes of the two forms *)

Section Outcomes.
Context `{Libs}.

(** The three outcomes of POST /signup. *)
Lemma post_signup_cases st sid body salt :
  (exists m, post_signup st sid body salt
             = (Responded (validation_error m), st)) \/
  (exists n e p u,
     Body.name body = Str n /\ Body.email body = Str e /\
     Body.password body = Str p /\
     findOne e (users st) = Some u /\
     post_signup st sid body salt = (Unhandled (DuplicateKey e), st)) \/
  (exists n e p,
     Body.name body = Str n /\ Body.email body = Str e /\
     Body.password body = Str p /\
     findOne e (users st) = None /\
     post_signup st sid body salt =
       (Responded (redirect "/members"),
        {| users :=
             users st ++ [new_User (users st) n e (bcrypt_hash p 10 salt)];
           sessions :=
             <[sid := SessionUser.mk None n None None]> (sessions st);
           console := console st |})).
Proof.
  destruct (signup_checks body) eqn:Hc.
  2:{ left. by apply post_signup_rejects. }
  right. unfold signup_checks in Hc.
  apply andb_true_iff in Hc as [Ht Hs].
  apply negb_true_iff in Ht. apply bool_decide_eq_true in Hs.
  pose proof Hs as Hs'.
  apply signup_schema_None in Hs' as [(n & Hn & _) Hl].
  apply login_schema_None in Hl as (e & p & He & Hp & _).
  unfold post_signup. rewrite Ht, Hs, Hn, He, Hp.
  destruct (findOne e (users st)) as [u|] eqn:Hf.
  - left. exists n, e, p, u. repeat split; try done.
    by rewrite (save_duplicate _ _ u).
  - right. exists n, e, p. repeat split; try done.
    by rewrite save_new.
Qed.

(** The two outcomes of POST /login. *)
Lemma post_login_cases st sid body :
  (exists m, post_login st sid body
             = (Responded (render 200 "login" (error_locals (Some m))), st))
  \/
  (exists e p u,
     Body.email body = Str e /\ Body.password body = Str p /\
     login_schema (Str e) (Str p) = None /\
     findOne e (users st) = Some u /\
     bcrypt_compare p (User.password u) = true /\
     post_login st sid body =
       (Responded (redirect "/members"),
        set_sessions (<[sid := snapshot u]> (sessions st)) st)).
Proof.
  unfold post_login.
  destruct (negb (truthy (Body.email body)) || _) eqn:Ht;
    [left; by eexists|].
  destruct (login_schema _ _) as [m|] eqn:Hs; [left; by eexists|].
  pose proof Hs as Hs'.
  apply login_schema_None in Hs' as (e & p & He & Hp & _).
  rewrite He, Hp in *.
  destruct (findOne e (users st)) as [u|] eqn:Hf; [|left; by eexists].
  destruct (bcrypt_compare p (User.password u)) eqn:Hcmp; simpl;
    [|left; by eexists].
  right. by exists e, p, u.
Qed.

(** Every request has one of the effects of [effect]. *)
Lemma app_effect st sid rq : effect st sid (snd (app st sid rq)).
Proof.
  destruct rq; simpl; try apply effect_none.
  - destruct (post_signup_cases st sid body salt)
      as [[m ->]|[(n & e & p & u & _ & _ & _ & _ & ->)
                 |(n & e & p & _ & _ & _ & Hf & ->)]];
      [apply effect_none | apply effect_none |].
    by apply effect_signup.
  - destruct (post_login_cases st sid body)
      as [[m ->]|(e & p & u & _ & _ & _ & Hf & Hcmp & ->)];
      [apply effect_none|].
    apply (effect_login st sid u p); [|done].
    by apply findOne_Some in Hf as [? _].
  - unfold get_admin. destruct (session_user st sid); [|apply effect_none].
    destruct (not_admin _); apply effect_none.
  - unfold get_promote.
    destruct (session_user st sid) as [su|] eqn:Hs.
    + rewrite (role_guard_present _ _ _ Hs).
      destruct (not_admin su) eqn:Hr; [apply effect_none|].
      apply not_admin_false in Hr.
      destruct id as [i|segment]; simpl; [|apply effect_none].
      apply (effect_role st sid su); [done | done | by left].
    + rewrite (role_guard_absent _ _ Hs). apply effect_none.
  - unfold get_demote.
    destruct (session_user st sid) as [su|] eqn:Hs.
    + rewrite (role_guard_present _ _ _ Hs).
      destruct (not_admin su) eqn:Hr; [apply effect_none|].
      apply not_admin_false in Hr.
      destruct id as [i|segment]; simpl; [|apply effect_none].
      apply (effect_role st sid su); [done | done | by right].
    + rewrite (role_guard_absent _ _ Hs). apply effect_none.
  - unfold get_members. destruct (session_user st sid); apply effect_none.
  - unfold get_logout. destruct err; [apply effect_log | apply effect_logout].
Qed.

(** A property that every effect keeps is kept by every sequence of
    requests. *)
Lemma serve_invariant (P : State -> Prop) :
  (forall st sid st', effect st sid st' -> P st -> P st') ->
  forall rqs st, P st -> P (serve st rqs).
Proof.
  intros Hstep rqs. induction rqs as [|[sid rq] rqs IH]; intros st HP;
    simpl; [done|].
  apply IH. apply (Hstep st sid); [apply app_effect | done].
Qed.

End Outcomes.

(** ** Role updates on the collection *)

Lemma updateOne_ids id v us :
  User._id <$> updateOne id v us = User._id <$> us.
Proof.
  induction us as [|u us IH]; simpl; [done|].
  case_bool_decide; simpl; [done | f_equal; exact IH].
Qed.

Lemma updateOne_emails id v us :
  User.email <$> updateOne id v us = User.email <$> us.
Proof.
  induction us as [|u us IH]; simpl; [done|].
  case_bool_decide; simpl; [done | f_equal; exact IH].
Qed.

Lemma updateOne_again id v w us :
  updateOne id v (updateOne id w us) = updateOne id v us.
Proof.
  induction us as [|u us IH]; simpl; [done|].
  case_bool_decide as Hu; simpl.
  - by rewrite bool_decide_eq_true_2.
  - rewrite bool_decide_eq_false_2 by done. by rewrite IH.
Qed.

Lemma updateOne_swap id1 v1 id2 v2 us :
  id1 <> id2 ->
  updateOne id1 v1 (updateOne id2 v2 us)
  = updateOne id2 v2 (updateOne id1 v1 us).
Proof.
  intros Hne. induction us as [|u us IH]; simpl; [done|].
  destruct (decide (User._id u = id1)) as [H1|H1];
    destruct (decide (User._id u = id2)) as [H2|H2]; [congruence | | |].
  - rewrite (bool_decide_eq_true_2 _ H1), (bool_decide_eq_false_2 _ H2).
    simpl.
    by rewrite (bool_decide_eq_true_2 _ H1), (bool_decide_eq_false_2 _ H2).
  - rewrite (bool_decide_eq_false_2 _ H1), (bool_decide_eq_true_2 _ H2).
    simpl.
    by rewrite (bool_decide_eq_false_2 _ H1), (bool_decide_eq_true_2 _ H2).
  - rewrite (bool_decide_eq_false_2 _ H1), (bool_decide_eq_false_2 _ H2).
    simpl.
    rewrite (bool_decide_eq_false_2 _ H1), (bool_decide_eq_false_2 _ H2).
    by rewrite IH.
Qed.

Lemma updateOne_elem id v us u :
  u ∈ us ->
  exists u', u' ∈ updateOne id v us /\
    User._id u' = User._id u /\ User.name u' = User.name u /\
    User.email u' = User.email u /\ User.password u' = User.password u.
Proof.
  intros (i & Hi)%list_elem_of_lookup.
  destruct (updateOne_lookup id v us i u Hi) as [Hu|[_ Hu]].
  - exists u. split; [|done]. apply list_elem_of_lookup. by exists i.
  - exists (User.set_user_type v u). split; [|done].
    apply list_elem_of_lookup. by exists i.
Qed.

(** With unique identifiers, the document a login finds by e-mail is the
    one a role update by its identifier writes. *)
Lemma findOne_updateOne email v us u :
  NoDup (User._id <$> us) ->
  findOne email us = Some u ->
  findOne email (updateOne (User._id u) v us)
  = Some (User.set_user_type v u).
Proof.
  unfold findOne. induction us as [|w us IH]; simpl; [done|].
  intros [Hw Hnd]%NoDup_cons. case_bool_decide as He.
  - intros [= <-]. rewrite bool_decide_eq_true_2 by done. simpl.
    by rewrite bool_decide_eq_true_2.
  - intros Hf.
    assert (u ∈ us) as Hu by (by apply (findOne_Some email us u)).
    assert (User._id w <> User._id u) as Hne.
    { intros Heq. apply Hw. rewrite Heq. apply list_elem_of_fmap.
      by exists u. }
    rewrite bool_decide_eq_false_2 by done. simpl.
    rewrite bool_decide_eq_false_2 by done. by apply IH.
Qed.

(** ** Invariants of the user collection *)

Lemma effect_unique_emails `{Libs} st sid st' :
  effect st sid st' -> unique_emails st -> unique_emails st'.
Proof.
  unfold unique_emails.
  intros [|su id v _ _ _|n e h Hf|u p _ _| |e]; simpl; try done.
  - by rewrite updateOne_emails.
  - intros Hnd. rewrite fmap_app. apply NoDup_app. split; [done|].
    split; [|apply NoDup_singleton].
    intros x (u & -> & Hu)%list_elem_of_fmap [= Hx]%list_elem_of_singleton.
    simpl in Hx. by apply (proj1 (findOne_None e (users st)) Hf u).
Qed.

Lemma effect_unique_ids `{Libs} st sid st' :
  effect st sid st' -> unique_ids st -> unique_ids st'.
Proof.
  unfold unique_ids.
  intros [|su id v _ _ _|n e h Hf|u p _ _| |e]; simpl; try done.
  - by rewrite updateOne_ids.
  - intros Hnd. rewrite fmap_app. apply NoDup_app. split; [done|].
    split; [|apply NoDup_singleton].
    intros x (u & -> & Hu)%list_elem_of_fmap Hx%list_elem_of_singleton.
    simpl in Hx. apply new_id_fresh in Hu. lia.
Qed.

(** X1: the e-mails of the stored users stay pairwise different over every
    sequence of requests. *)
Theorem serve_unique_emails `{Libs} (st : State)
    (rqs : list (nat * request)) :
  unique_emails st -> unique_emails (serve st rqs).
Proof.
  apply (serve_invariant unique_emails). apply @effect_unique_emails.
Qed.

Lemma serve_unique_emails_witness :
  unique_emails
    (serve (H := demo_libs) demo_state
       [(30, POST_signup
               (Body.mk (Str "carol3") (Str "c@x.com") (Str "secret"))
               "salt");
        (40, POST_signup
               (Body.mk (Str "carla4") (Str "c@x.com") (Str "secret2"))
               "pepper");
        (10, GET_promote (ObjectId 3))]).
Proof.
  apply (@serve_unique_emails demo_libs demo_state).
  apply (bool_decide_unpack _). vm_compute. reflexivity.
Defined.

(** X2: the identifiers of the stored users stay pairwise different over
    every sequence of requests: a new document gets an identifier no
    stored document has, and no handler writes [_id]. *)
Theorem serve_unique_ids `{Libs} (st : State) (rqs : list (nat * request)) :
  unique_ids st -> unique_ids (serve st rqs).
Proof.
  apply (serve_invariant unique_ids). apply @effect_unique_ids.
Qed.

Lemma serve_unique_ids_witness :
  unique_ids
    (serve (H := demo_libs) demo_state
       [(30, POST_signup
               (Body.mk (Str "carol3") (Str "c@x.com") (Str "secret"))
               "salt");
        (40, POST_signup
               (Body.mk (Str "dave44") (Str "d@x.com") (Str "secret2"))
               "pepper")]).
Proof.
  apply (@serve_unique_ids demo_libs demo_state).
  apply (bool_decide_unpack _). vm_compute. reflexivity.
Defined.

Lemma effect_users `{Libs} st sid st' :
  effect st sid st' ->
  users st' = users st \/
  (exists su id v,
     session_user st sid = Some su /\
     SessionUser.user_type su = Some "admin" /\
     users st' = updateOne id v (users st)) \/
  (exists u,
     users st' = users st ++ [u] /\ User.user_type u = "user" /\
     findOne (User.email u) (users st) = None).
Proof.
  intros [|su id v Hs Hr _|n e h Hf|u p _ _| |e]; simpl; try (by left).
  - right; left. by exists su, id, v.
  - right; right. by eexists.
Qed.

Lemma effect_persist `{Libs} st sid st' i u :
  effect st sid st' ->
  users st !! i = Some u ->
  exists u', users st' !! i = Some u' /\ same_identity u u'.
Proof.
  intros [Hu|[(su & id & v & _ & _ & Hu)|(w & Hu & _)]]%effect_users Hi;
    rewrite Hu.
  - by exists u.
  - destruct (updateOne_lookup id v (users st) i u Hi) as [Hl|[_ Hl]].
    + by exists u.
    + by exists (User.set_user_type v u).
  - exists u. split; [|done]. rewrite lookup_app_l; [done|].
    by apply lookup_lt_Some in Hi.
Qed.

Lemma effect_persist_serve `{Libs} st rqs i u :
  users st !! i = Some u ->
  exists u', users (serve st rqs) !! i = Some u' /\ same_identity u u'.
Proof.
  intros Hi.
  apply (serve_invariant
           (fun s => exists u', users s !! i = Some u' /\ same_identity u u'));
    [|by exists u].
  intros st1 sid st2 Heff (u1 & H1 & Hid).
  destruct (effect_persist st1 sid st2 i u1 Heff H1) as (u2 & H2 & Hid2).
  exists u2. split; [done|].
  unfold same_identity in *. intuition congruence.
Qed.

(** X3: no sequence of requests deletes a stored user or changes its
    identifier, name, e-mail or password: the document stays at its place
    in the collection, and only its role can differ. *)
Theorem users_persist `{Libs} (st : State) (rqs : list (nat * request))
    (i : nat) (u : User.t) :
  users st !! i = Some u ->
  exists u', users (serve st rqs) !! i = Some u' /\ same_identity u u'.
Proof. apply effect_persist_serve. Qed.

(** bob through a promotion, a signup, a logout and a failed login. *)
Lemma users_persist_witness :
  exists u',
    users (serve (H := demo_libs) demo_state
             [(10, GET_promote (ObjectId 2));
              (30, POST_signup
                     (Body.mk (Str "carol3") (Str "c@x.com") (Str "secret"))
                     "salt");
              (20, GET_logout None);
              (20, POST_login
                     (Body.mk Undefined (Str "b@x.com") (Str "wrong")))])
      !! 1 = Some u' /\
    same_identity bob u'.
Proof.
  apply (@users_persist demo_libs demo_state). reflexivity.
Defined.

(** ** Who can change a role *)

Lemma effect_no_admin `{Libs} st sid st' :
  effect st sid st' -> no_admin st -> no_admin st'.
Proof.
  unfold no_admin.
  intros [|su id v Hs Hr _|n e h Hf|u p Hu _| |e] [Hus Hss]; simpl;
    try done.
  - exfalso. by apply (Hss sid su Hs).
  - split.
    + apply Forall_app. split; [done|]. by apply Forall_singleton.
    + by apply map_Forall_insert_2.
  - split; [done|]. apply map_Forall_insert_2; [|done]. simpl.
    intros [= Hadmin]. by apply (proj1 (Forall_forall _ _) Hus u Hu).
  - split; [done|]. by apply map_Forall_delete.
Qed.

(** X4: from a state in which no stored user and no session has the role
    ['admin'], no sequence of requests reaches a state with an
    administrator: the application creates its first administrator by no
    route. *)
Theorem no_admin_forever `{Libs} (st : State)
    (rqs : list (nat * request)) :
  no_admin st -> no_admin (serve st rqs).
Proof.
  apply (serve_invariant no_admin). apply @effect_no_admin.
Qed.

Lemma no_admin_forever_witness :
  no_admin
    (serve (H := demo_libs) plain_state
       [(20, GET_promote (ObjectId 2));
        (30, POST_signup
               (Body.mk (Str "admin") (Str "c@x.com") (Str "secret"))
               "salt");
        (30, GET_promote (ObjectId 3));
        (40, POST_login (Body.mk Undefined (Str "c@x.com") (Str "secret")));
        (40, GET_promote (ObjectId 3))]).
Proof.
  apply (@no_admin_forever demo_libs plain_state).
  split; apply (bool_decide_unpack _); vm_compute; reflexivity.
Defined.

(** X5: a request of a session that fails the role guard (no session
    user, or a role other than ['admin']) changes no stored user: the
    collection is the same, or has one more user, of role ['user'], with an
    e-mail that was not stored. *)
Theorem guard_protects_users `{Libs} (st : State) (sid : nat)
    (rq : request) :
  role_guard_fails st sid = true ->
  users (snd (app st sid rq)) = users st \/
  exists u,
    users (snd (app st sid rq)) = users st ++ [u] /\
    User.user_type u = "user" /\
    findOne (User.email u) (users st) = None.
Proof.
  intros Hg.
  destruct (effect_users st sid _ (app_effect st sid rq))
    as [Hu|[(su & id & v & Hs & Hr & _)|Hu]]; [by left | | by right].
  rewrite (role_guard_present _ _ _ Hs) in Hg.
  apply not_admin_true in Hg. done.
Qed.

Lemma guard_protects_users_witness :
  users (snd (app (H := demo_libs) demo_state 20 (GET_demote (ObjectId 1))))
    = users demo_state \/
  exists u,
    users (snd (app (H := demo_libs) demo_state 20 (GET_demote (ObjectId 1))))
      = users demo_state ++ [u] /\
    User.user_type u = "user" /\
    findOne (User.email u) (users demo_state) = None.
Proof.
  apply (@guard_protects_users demo_libs demo_state 20
           (GET_demote (ObjectId 1))).
  reflexivity.
Defined.

(** ** Signup with a stored e-mail *)

Lemma post_signup_duplicate `{Libs} st sid body n e p salt u :
  Body.name body = Str n ->
  Body.email body = Str e ->
  Body.password body = Str p ->
  signup_schema (Str n) (Str e) (Str p) = None ->
  findOne e (users st) = Some u ->
  post_signup st sid body salt = (Unhandled (DuplicateKey e), st).
Proof.
  intros Hn He Hp Hschema Hf. unfold post_signup.
  rewrite Hn, He, Hp, (schema_truthy_signup _ _ _ Hschema), Hschema.
  by rewrite (save_duplicate _ _ u).
Qed.

(** X6: a valid signup whose e-mail a stored user has sends no response
    (the rejection of [save] is not caught) and changes nothing: no second
    user, no session, and the session user of the request stays what it
    was. *)
Theorem signup_duplicate_email `{Libs} (st : State) (sid : nat)
    (body : Body.t) (n e p salt : string) (u : User.t) :
  Body.name body = Str n ->
  Body.email body = Str e ->
  Body.password body = Str p ->
  signup_schema (Str n) (Str e) (Str p) = None ->
  findOne e (users st) = Some u ->
  post_signup st sid body salt = (Unhandled (DuplicateKey e), st).
Proof. apply post_signup_duplicate. Qed.

Lemma signup_duplicate_email_witness :
  post_signup (H := demo_libs) demo_state 30
    (Body.mk (Str "robert") (Str "b@x.com") (Str "secret")) "salt"
  = (Unhandled (DuplicateKey "b@x.com"), demo_state).
Proof.
  apply (@signup_duplicate_email demo_libs demo_state 30
           (Body.mk (Str "robert") (Str "b@x.com") (Str "secret"))
           "robert" "b@x.com" "secret" "salt" bob);
    reflexivity.
Defined.

(** X7: after a successful signup, every later valid signup with the same
    e-mail, from any session and with any name and password, and after any
    requests in between, sends no response and changes nothing. *)
Theorem signup_twice `{Libs} (st : State) (sid sid' : nat)
    (body body' : Body.t) (n e p salt n' p' salt' : string)
    (rqs : list (nat * request)) :
  Body.name body = Str n ->
  Body.email body = Str e ->
  Body.password body = Str p ->
  signup_schema (Str n) (Str e) (Str p) = None ->
  findOne e (users st) = None ->
  Body.name body' = Str n' ->
  Body.email body' = Str e ->
  Body.password body' = Str p' ->
  signup_schema (Str n') (Str e) (Str p') = None ->
  let st1 := serve (snd (post_signup st sid body salt)) rqs in
  post_signup st1 sid' body' salt' = (Unhandled (DuplicateKey e), st1).
Proof.
  intros Hn He Hp Hschema Hnone Hn' He' Hp' Hschema' st1.
  pose proof (post_signup_accepted st sid body n e p salt Hn He Hp Hschema
                Hnone) as Hrun.
  assert (exists u, findOne e (users st1) = Some u) as [u Hu].
  { assert (users (snd (post_signup st sid body salt))
              !! length (users st)
            = Some (User.mk (new_id (users st)) n e (bcrypt_hash p 10 salt)
                      "user")) as Hi.
    { rewrite Hrun. simpl. rewrite lookup_app_r by lia.
      by rewrite Nat.sub_diag. }
    destruct (effect_persist_serve _ rqs _ _ Hi) as (u' & Hu' & _ & _ & Hm & _).
    destruct (findOne e (users st1)) as [w|] eqn:Hf; [by exists w|].
    exfalso. apply (proj1 (findOne_None e (users st1)) Hf u'); [|done].
    apply list_elem_of_lookup. by eexists. }
  by apply (post_signup_duplicate st1 sid' body' n' e p' salt' u).
Qed.

(** carol takes "c@x.com", bob is promoted, and a second form with that
    e-mail is sent from another session. *)
Lemma signup_twice_witness :
  let st1 :=
    serve (H := demo_libs)
      (snd (post_signup (H := demo_libs) demo_state 30
              (Body.mk (Str "carol3") (Str "c@x.com") (Str "secret"))
              "salt"))
      [(10, GET_promote (ObjectId 2))] in
  post_signup (H := demo_libs) st1 40
    (Body.mk (Str "carla4") (Str "c@x.com") (Str "other1")) "pepper"
  = (Unhandled (DuplicateKey "c@x.com"), st1).
Proof.
  apply (@signup_twice demo_libs demo_state 30 40
           (Body.mk (Str "carol3") (Str "c@x.com") (Str "secret"))
           (Body.mk (Str "carla4") (Str "c@x.com") (Str "other1"))
           "carol3" "c@x.com" "secret" "salt" "carla4" "other1" "pepper"
           [(10, GET_promote (ObjectId 2))]);
    reflexivity.
Defined.

(** ** Login *)

(** X8: POST /login has two outcomes. Either it renders the form with a
    message and changes nothing (a session user already stored for the
    request stays), or it redirects to [/members]; then a stored user has
    the submitted e-mail, the submitted password verifies against its
    hash, and the only change is that the session user of the request is
    the snapshot of that user. *)
Theorem login_outcomes `{Libs} (st : State) (sid : nat) (body : Body.t) :
  (exists m,
     post_login st sid body
     = (Responded (render 200 "login" (error_locals (Some m))), st)) \/
  (exists e p u,
     Body.email body = Str e /\ Body.password body = Str p /\
     u ∈ users st /\ User.email u = e /\
     bcrypt_compare p (User.password u) = true /\
     post_login st sid body =
       (Responded (redirect "/members"),
        set_sessions (<[sid := snapshot u]> (sessions st)) st)).
Proof.
  destruct (post_login_cases st sid body)
    as [Hm|(e & p & u & He & Hp & _ & Hf & Hcmp & Hrun)]; [by left|].
  right. exists e, p, u.
  apply findOne_Some in Hf as [Hu Hue]. by repeat split.
Qed.

(** X9: credentials that pass the validation of signup pass the validation
    of login: for such a body POST /login answers the authentication error
    or the redirect to [/members], never a validation message. *)
Theorem signup_credentials_pass_login `{Libs} (st : State) (sid : nat)
    (body : Body.t) :
  signup_schema (Body.name body) (Body.email body) (Body.password body)
  = None ->
  fst (post_login st sid body) = Responded auth_error \/
  fst (post_login st sid body) = Responded (redirect "/members").
Proof.
  intros [_ Hl]%signup_schema_None. unfold post_login.
  rewrite (schema_truthy_login _ _ Hl), Hl.
  apply login_schema_None in Hl as (e & p & -> & -> & _).
  destruct (findOne e (users st)) as [u|]; [|by left].
  destruct (bcrypt_compare p (User.password u)); simpl; [by right | by left].
Qed.

Lemma signup_credentials_pass_login_witness :
  fst (post_login (H := demo_libs) demo_state 30
         (Body.mk (Str "bob22") (Str "b@x.com") (Str "hunter2")))
    = Responded auth_error \/
  fst (post_login (H := demo_libs) demo_state 30
         (Body.mk (Str "bob22") (Str "b@x.com") (Str "hunter2")))
    = Responded (redirect "/members").
Proof.
  apply (@signup_credentials_pass_login demo_libs demo_state 30
           (Body.mk (Str "bob22") (Str "b@x.com") (Str "hunter2"))).
  reflexivity.
Defined.

(** X10: after a successful login the session shows the stored user: over
    any sequence of requests in which the session does not sign up, log in
    or log out, GET /members renders the name of the user with the three
    images and GET / renders the snapshot, and neither changes the
    state. *)
Theorem login_then_pages `{Libs} (st : State) (sid : nat) (body : Body.t)
    (e p : string) (u : User.t) (rqs : list (nat * request)) :
  Body.email body = Str e ->
  Body.password body = Str p ->
  login_schema (Str e) (Str p) = None ->
  findOne e (users st) = Some u ->
  bcrypt_compare p (User.password u) = true ->
  forallb (leaves sid) rqs = true ->
  let st' := serve (snd (post_login st sid body)) rqs in
  app st' sid GET_members =
    (Responded
       (render 200 "members"
          (members_locals (User.name u) ["Cat1.jpg"; "Cat2.jpg"; "Cat3.jpg"])),
     st') /\
  app st' sid GET_home =
    (Responded (render 200 "home" (home_locals (Some (snapshot u)))), st').
Proof.
  intros He Hp Hschema Hf Hcmp Hrqs st'.
  assert (session_user st' sid = Some (snapshot u)) as Hs.
  { unfold st'. rewrite serve_leaves by done.
    rewrite (post_login_success st sid body e p u) by done.
    unfold session_user. simpl. by rewrite lookup_insert_eq. }
  split; simpl.
  - unfold get_members. by rewrite Hs.
  - unfold get_home. by rewrite Hs.
Qed.

Lemma login_then_pages_witness :
  let st' :=
    serve (H := demo_libs)
      (snd (post_login (H := demo_libs) demo_state 30
              (Body.mk Undefined (Str "b@x.com") (Str "hunter2"))))
      [(10, GET_promote (ObjectId 2)); (20, GET_logout None)] in
  app (H := demo_libs) st' 30 GET_members =
    (Responded
       (render 200 "members"
          (members_locals "bob22" ["Cat1.jpg"; "Cat2.jpg"; "Cat3.jpg"])),
     st') /\
  app (H := demo_libs) st' 30 GET_home =
    (Responded (render 200 "home" (home_locals (Some (snapshot bob)))), st').
Proof.
  apply (@login_then_pages demo_libs demo_state 30
           (Body.mk Undefined (Str "b@x.com") (Str "hunter2"))
           "b@x.com" "hunter2" bob
           [(10, GET_promote (ObjectId 2)); (20, GET_logout None)]);
    reflexivity.
Defined.

(** X11: with unique identifiers, a login after a role update takes the new
    role: when an administrator promotes or demotes the user that a login
    finds, that login still succeeds and its session user has the role
    just written. *)
Theorem role_update_then_login `{Libs} (st : State) (sid sid' : nat)
    (su : SessionUser.t) (rq : request) (role : string) (body : Body.t)
    (e p : string) (u : User.t) :
  unique_ids st ->
  session_user st sid = Some su ->
  SessionUser.user_type su = Some "admin" ->
  role_route rq = Some (ObjectId (User._id u), role) ->
  Body.email body = Str e ->
  Body.password body = Str p ->
  login_schema (Str e) (Str p) = None ->
  findOne e (users st) = Some u ->
  bcrypt_compare p (User.password u) = true ->
  let st1 := snd (app st sid rq) in
  post_login st1 sid' body =
    (Responded (redirect "/members"),
     set_sessions
       (<[sid' := snapshot (User.set_user_type role u)]> (sessions st1)) st1)
  /\ SessionUser.user_type (snapshot (User.set_user_type role u))
     = Some role.
Proof.
  intros Hids Hs Hadmin Hrq He Hp Hschema Hf Hcmp st1.
  assert (users st1 = updateOne (User._id u) role (users st)) as Hus.
  { apply not_admin_false in Hadmin. unfold st1.
    destruct rq; try discriminate Hrq; simpl in Hrq;
      injection Hrq as -> <-; simpl.
    - unfold get_promote.
      by rewrite (role_guard_present _ _ _ Hs), Hadmin.
    - unfold get_demote.
      by rewrite (role_guard_present _ _ _ Hs), Hadmin. }
  split; [|done].
  apply (post_login_success st1 sid' body e p (User.set_user_type role u));
    try done.
  rewrite Hus. by apply findOne_updateOne.
Qed.

Lemma role_update_then_login_witness :
  let st1 :=
    snd (app (H := demo_libs) demo_state 10 (GET_promote (ObjectId 2))) in
  post_login (H := demo_libs) st1 20
    (Body.mk Undefined (Str "b@x.com") (Str "hunter2")) =
    (Responded (redirect "/members"),
     set_sessions
       (<[20 := snapshot (User.set_user_type "admin" bob)]> (sessions st1))
       st1)
  /\ SessionUser.user_type (snapshot (User.set_user_type "admin" bob))
     = Some "admin".
Proof.
  apply (@role_update_then_login demo_libs demo_state 10 20
           (SessionUser.mk (Some 1) "alice1" (Some "a@x.com") (Some "admin"))
           (GET_promote (ObjectId 2)) "admin"
           (Body.mk Undefined (Str "b@x.com") (Str "hunter2"))
           "b@x.com" "hunter2" bob);
    try reflexivity.
  apply (bool_decide_unpack _). vm_compute. reflexivity.
Defined.

(** ** Routes that only read *)

Lemma app_read_only `{Libs} st sid rq :
  read_only rq = true -> snd (app st sid rq) = st.
Proof.
  destruct rq; try discriminate; intros _; simpl; try done.
  - unfold get_admin. destruct (session_user st sid); [|done].
    by destruct (not_admin _).
  - unfold get_members. by destruct (session_user st sid).
Qed.

(** X12: the pages (GET /, /signup, /login, /admin, /members and the 404
    page) change nothing: after any sequence of such requests, from any
    sessions, the user collection, the session store and the console are
    what they were. *)
Theorem pages_change_nothing `{Libs} (st : State)
    (rqs : list (nat * request)) :
  forallb (fun x => read_only (snd x)) rqs = true ->
  serve st rqs = st.
Proof.
  induction rqs as [|[sid rq] rqs IH]; simpl; [done|].
  intros [Hrq Hrest]%andb_true_iff.
  rewrite (app_read_only st sid rq Hrq). by apply IH.
Qed.

Lemma pages_change_nothing_witness :
  serve (H := demo_libs) demo_state
    [(10, GET_admin); (20, GET_admin); (30, GET_members); (20, GET_home);
     (30, Unmatched); (30, GET_login); (30, GET_signup)]
  = demo_state.
Proof.
  apply (@pages_change_nothing demo_libs demo_state). reflexivity.
Defined.

(** ** Composition of role updates *)

Lemma role_route_users `{Libs} st sid rq id v :
  role_route rq = Some (id, v) ->
  snd (app st sid rq) =
    if role_guard_fails st sid then st
    else set_users (role_write id v (users st)) st.
Proof.
  intros Hrq.
  destruct rq; try discriminate Hrq; simpl in Hrq; injection Hrq as <- <-;
    simpl.
  - unfold get_promote. destruct (role_guard_fails st sid); [done|].
    destruct id0; simpl; [done | by destruct st].
  - unfold get_demote. destruct (role_guard_fails st sid); [done|].
    destruct id0; simpl; [done | by destruct st].
Qed.

Lemma role_guard_set_users us st sid :
  role_guard_fails (set_users us st) sid = role_guard_fails st sid.
Proof. done. Qed.

Lemma role_write_again id v w us :
  role_write id v (role_write id w us) = role_write id v us.
Proof. destruct id; simpl; [apply updateOne_again | done]. Qed.

Lemma role_write_swap id1 v1 id2 v2 us :
  id1 <> id2 ->
  role_write id1 v1 (role_write id2 v2 us)
  = role_write id2 v2 (role_write id1 v1 us).
Proof.
  destruct id1 as [i1|s1], id2 as [i2|s2]; simpl; try done.
  intros Hne. apply updateOne_swap. congruence.
Qed.

(** X13: of two role updates of the same identifier by a session, the
    second wins: promote then demote is demote, demote then promote is
    promote, and a repeated update is the update. *)
Theorem role_update_last_wins `{Libs} (st : State) (sid : nat)
    (rq1 rq2 : request) (id : route_id) (v1 v2 : string) :
  role_route rq1 = Some (id, v1) ->
  role_route rq2 = Some (id, v2) ->
  serve st [(sid, rq1); (sid, rq2)] = serve st [(sid, rq2)].
Proof.
  intros H1 H2. simpl.
  rewrite (role_route_users st sid rq1 id v1 H1).
  rewrite (role_route_users st sid rq2 id v2 H2).
  destruct (role_guard_fails st sid) eqn:Hg.
  - rewrite (role_route_users st sid rq2 id v2 H2). by rewrite Hg.
  - rewrite (role_route_users _ sid rq2 id v2 H2).
    rewrite role_guard_set_users, Hg. unfold set_users. simpl.
    by rewrite role_write_again.
Qed.

Lemma role_update_last_wins_witness :
  serve (H := demo_libs) demo_state
    [(10, GET_promote (ObjectId 2)); (10, GET_demote (ObjectId 2))]
  = serve (H := demo_libs) demo_state [(10, GET_demote (ObjectId 2))].
Proof.
  apply (@role_update_last_wins demo_libs demo_state 10
           (GET_promote (ObjectId 2)) (GET_demote (ObjectId 2)) (ObjectId 2)
           "admin" "user");
    reflexivity.
Defined.

(** X14: role updates of different identifiers commute, whatever the
    sessions that request them. *)
Theorem role_updates_commute `{Libs} (st : State) (sid1 sid2 : nat)
    (rq1 rq2 : request) (id1 id2 : route_id) (v1 v2 : string) :
  role_route rq1 = Some (id1, v1) ->
  role_route rq2 = Some (id2, v2) ->
  id1 <> id2 ->
  serve st [(sid1, rq1); (sid2, rq2)] = serve st [(sid2, rq2); (sid1, rq1)].
Proof.
  intros H1 H2 Hne. simpl.
  rewrite (role_route_users st sid1 rq1 id1 v1 H1).
  rewrite (role_route_users st sid2 rq2 id2 v2 H2).
  destruct (role_guard_fails st sid1) eqn:Hg1;
    destruct (role_guard_fails st sid2) eqn:Hg2;
    rewrite ?(role_route_users _ sid2 rq2 id2 v2 H2),
            ?(role_route_users _ sid1 rq1 id1 v1 H1),
            ?role_guard_set_users, ?Hg1, ?Hg2; try done.
  unfold set_users. simpl. by rewrite role_write_swap.
Qed.

Lemma role_updates_commute_witness :
  serve (H := demo_libs) demo_state
    [(10, GET_promote (ObjectId 2)); (10, GET_demote (ObjectId 1))]
  = serve (H := demo_libs) demo_state
      [(10, GET_demote (ObjectId 1)); (10, GET_promote (ObjectId 2))].
Proof.
  apply (@role_updates_commute demo_libs demo_state 10 10
           (GET_promote (ObjectId 2)) (GET_demote (ObjectId 1))
           (ObjectId 2) (ObjectId 1) "admin" "user");
    [reflexivity | reflexivity | discriminate].
Defined.

(** ** Where session users come from *)

Lemma describes_same_identity u u' su :
  same_identity u u' -> describes u su -> describes u' su.
Proof.
  intros (Hid & Hn & He & _) (Dn & Did & De). unfold describes.
  rewrite Hn, Hid, He. done.
Qed.

Lemma effect_sessions_of_users `{Libs} st sid st' :
  effect st sid st' -> sessions_of_users st -> sessions_of_users st'.
Proof.
  unfold sessions_of_users.
  intros [|su id v _ _ _|n e h Hf|u p Hu _| |e] Hinv; simpl; try done.
  - intros s x Hx. destruct (Hinv s x Hx) as (u & Hu & Hd).
    destruct (updateOne_elem id v (users st) u Hu)
      as (u' & Hu' & Hid & Hn & He & Hp).
    exists u'. split; [done|].
    by apply (describes_same_identity u u').
  - apply map_Forall_insert_2.
    + exists (new_User (users st) n e h). split.
      * apply elem_of_app. right. by apply list_elem_of_singleton.
      * by repeat split.
    + intros s x Hx. destruct (Hinv s x Hx) as (u & Hu & Hd).
      exists u. split; [|done]. apply elem_of_app. by left.
  - apply map_Forall_insert_2; [|done].
    exists u. split; [done|]. unfold describes, snapshot. simpl.
    repeat split; by intros ? [= <-].
  - by apply map_Forall_delete.
Qed.

(** X15: every session user is taken from a stored user: starting from a
    state where each session user has the name of a stored user, and its
    identifier and e-mail when it has these properties (an empty session
    store is one), this holds after every sequence of requests. Only the
    role of a session user is not tied to the stored user. *)
Theorem sessions_come_from_users `{Libs} (st : State)
    (rqs : list (nat * request)) :
  sessions_of_users st -> sessions_of_users (serve st rqs).
Proof.
  apply (serve_invariant sessions_of_users).
  apply @effect_sessions_of_users.
Qed.

Lemma sessions_come_from_users_witness :
  sessions_of_users
    (serve (H := demo_libs) (set_sessions ∅ demo_state)
       [(30, POST_signup
               (Body.mk (Str "carol3") (Str "c@x.com") (Str "secret"))
               "salt");
        (20, POST_login (Body.mk Undefined (Str "b@x.com") (Str "hunter2")));
        (10, POST_login (Body.mk Undefined (Str "a@x.com") (Str "secret")));
        (10, GET_demote (ObjectId 2))]).
Proof.
  apply (@sessions_come_from_users demo_libs (set_sessions ∅ demo_state)).
  unfold sessions_of_users. simpl. apply map_Forall_empty.
Defined.

(** ** Logout and the console *)

(** X16: a logout ends the rights of the session, an administrator's
    included: after GET /logout with a store that destroys the session,
    GET /promote/:id and GET /demote/:id of that session answer 403,
    GET /admin redirects to [/login], and none of them changes the
    state. *)
Theorem logout_revokes `{Libs} (st : State) (sid : nat) (id : route_id) :
  let st1 := snd (app st sid (GET_logout None)) in
  app st1 sid (GET_promote id) = (Responded forbidden, st1) /\
  app st1 sid (GET_demote id) = (Responded forbidden, st1) /\
  app st1 sid GET_admin = (Responded (redirect "/login"), st1).
Proof.
  intros st1.
  assert (session_user st1 sid = None) as Hs
    by (unfold st1, session_user; simpl; apply lookup_delete_eq).
  repeat split; apply guard_failure_app.
  - by apply absent_promote.
  - by apply absent_demote.
  - by apply absent_admin.
Qed.

Lemma app_console `{Libs} st sid rq :
  logs rq = false -> console (snd (app st sid rq)) = console st.
Proof.
  intros Hl. destruct rq; simpl; try done.
  - destruct (post_signup_cases st sid body salt)
      as [[m ->]|[(n & e & p & u & _ & _ & _ & _ & ->)
                 |(n & e & p & _ & _ & _ & _ & ->)]]; done.
  - destruct (post_login_cases st sid body)
      as [[m ->]|(e & p & u & _ & _ & _ & _ & _ & ->)]; done.
  - unfold get_admin. destruct (session_user st sid); [|done].
    by destruct (not_admin _).
  - unfold get_promote. destruct (role_guard_fails st sid); [done|].
    by destruct id.
  - unfold get_demote. destruct (role_guard_fails st sid); [done|].
    by destruct id.
  - unfold get_members. by destruct (session_user st sid).
  - by destruct err.
Qed.

(** X17: the console is written by a failing logout only: over a sequence
    of requests without a GET /logout whose store fails, the console is
    what it was, and each failing logout adds one line, with the error of
    the store. *)
Theorem console_only_failed_logout `{Libs} (st : State)
    (rqs : list (nat * request)) (sid : nat) (e : string) :
  forallb (fun x => negb (logs (snd x))) rqs = true ->
  console (serve st rqs) = console st /\
  console (serve st (rqs ++ [(sid, GET_logout (Some e))]))
  = console st ++ [destroy_log e].
Proof.
  revert st. induction rqs as [|[s rq] rqs IH]; intros st; simpl; [done|].
  intros [Hrq Hrest]%andb_true_iff. apply negb_true_iff in Hrq.
  destruct (IH (snd (app st s rq)) Hrest) as [H1 H2].
  rewrite H1, H2. by rewrite (app_console st s rq Hrq).
Qed.

Lemma console_only_failed_logout_witness :
  console (serve (H := demo_libs) demo_state
             [(10, GET_logout None); (20, GET_promote (ObjectId 1))])
    = console demo_state /\
  console (serve (H := demo_libs) demo_state
             ([(10, GET_logout None); (20, GET_promote (ObjectId 1))]
              ++ [(20, GET_logout (Some "ECONNRESET"))]))
    = console demo_state ++ [destroy_log "ECONNRESET"].
Proof.
  apply (@console_only_failed_logout demo_libs demo_state
           [(10, GET_logout None); (20, GET_promote (ObjectId 1))] 20
           "ECONNRESET").
  reflexivity.
Defined.

(** ** Who sees what *)

(** X18: the list of the stored users (with their password hashes) is
    rendered to an administrator only, and the members page to a session
    with a user only: a response with the users is the answer to
    GET /admin of a session whose role is ['admin'] and lists the stored
    users; a response with the members page carries the name of the
    session user of the request. *)
Theorem pages_need_session `{Libs} (st : State) (sid : nat) (rq : request)
    (status : nat) (view : string) (l : locals) :
  fst (app st sid rq) = Responded (render status view l) ->
  (forall us, l = admin_locals us ->
     rq = GET_admin /\ us = users st /\
     exists su, session_user st sid = Some su /\
       SessionUser.user_type su = Some "admin") /\
  (forall name images, l = members_locals name images ->
     rq = GET_members /\
     exists su, session_user st sid = Some su /\
       SessionUser.name su = name).
Proof.
  intros Hr.
  destruct rq; simpl in Hr.
  - injection Hr as <- <- <-. by split.
  - injection Hr as <- <- <-. by split.
  - destruct (post_signup_cases st sid body salt)
      as [[m Hm]|[(n & e & p & u & _ & _ & _ & _ & Hm)
                 |(n & e & p & _ & _ & _ & _ & Hm)]];
      rewrite Hm in Hr; simpl in Hr; try discriminate Hr.
    injection Hr as <- <- <-. by split.
  - injection Hr as <- <- <-. by split.
  - destruct (post_login_cases st sid body)
      as [[m Hm]|(e & p & u & _ & _ & _ & _ & _ & Hm)];
      rewrite Hm in Hr; simpl in Hr; try discriminate Hr.
    injection Hr as <- <- <-. by split.
  - unfold get_admin in Hr.
    destruct (session_user st sid) as [su|] eqn:Hs; [|discriminate Hr].
    destruct (not_admin su) eqn:Hrole; [discriminate Hr|].
    injection Hr as <- <- <-. apply not_admin_false in Hrole.
    split; [|done]. intros us [= <-]. repeat split. by exists su.
  - unfold get_promote in Hr. destruct (role_guard_fails st sid); [done|].
    by destruct id.
  - unfold get_demote in Hr. destruct (role_guard_fails st sid); [done|].
    by destruct id.
  - unfold get_members in Hr.
    destruct (session_user st sid) as [su|] eqn:Hs; [|discriminate Hr].
    injection Hr as <- <- <-.
    split; [done|]. intros name images [= <- <-]. split; [done|].
    by exists su.
  - unfold get_logout in Hr. by destruct err.
  - injection Hr as <- <- <-. by split.
Qed.

Lemma pages_need_session_witness :
  (forall us, admin_locals (users demo_state) = admin_locals us ->
     GET_admin = GET_admin /\ us = users demo_state /\
     exists su, session_user demo_state 10 = Some su /\
       SessionUser.user_type su = Some "admin") /\
  (forall name images,
     admin_locals (users demo_state) = members_locals name images ->
     GET_admin = GET_members /\
     exists su, session_user demo_state 10 = Some su /\
       SessionUser.name su = name).
Proof.
  apply (@pages_need_session demo_libs demo_state 10 GET_admin 200 "admin"
           (admin_locals (users demo_state))).
  reflexivity.
Defined.

(** X19: the requests of other sessions never give a session a user, change
    it or end it: over any sequence of requests of sessions other than
    [s], whatever their routes, the session user of [s] (present or not)
    is what it was. *)
Theorem sessions_isolated `{Libs} (st : State) (s : nat)
    (rqs : list (nat * request)) :
  forallb (fun x => negb (fst x =? s)) rqs = true ->
  session_user (serve st rqs) s = session_user st s.
Proof.
  intros Hrqs. apply serve_leaves.
  apply forallb_forall. intros x Hx.
  apply (proj1 (forallb_forall _ _) Hrqs) in Hx.
  unfold leaves. by rewrite Hx.
Qed.

Lemma sessions_isolated_witness :
  session_user
    (serve (H := demo_libs) demo_state
       [(20, GET_logout None);
        (20, POST_login (Body.mk Undefined (Str "a@x.com") (Str "secret")));
        (10, GET_logout None);
        (20, GET_demote (ObjectId 1))]) 30
  = session_user demo_state 30.
Proof.
  apply (@sessions_isolated demo_libs demo_state 30). reflexivity.
Defined.
